(** * Birdwatcher package service: manifest store, selector resolver,
      artifact locator and result reporter

    A shallow embedding of
    [agent/plugins/configurepackage/birdwatcher/birdwatcherservice/birdwatcherservice.go]
    and the properties its specification states about it.

    Conventions of the embedding:
    - a Go [map[K]V] is an [option (gmap K V)]: [None] is the nil map, which
      reads like an empty one but is not [reflect.DeepEqual] to it;
    - a Go pointer [*T] is an [option T], [None] being nil;
    - a Go [error] is the text its [Error()] method prints, so that [%v] of an
      error is the text itself; a [(value, error)] pair that follows the usual
      discipline is a [result];
    - [int64] is [Z] with the wrap-around written out ([wrap64]) and [/] is
      [Z.quot], which truncates toward zero as Go does;
    - the collaborators (cache, archive, collector, clock, facade, downloader)
      are outside the file: the cache is a state with two operations, the
      others are records of functions, and every call to one of them is
      logged in the world, in order;
    - the tracer only logs and is left out. *)

From Stdlib Require Import ZArith Strings.String Strings.Byte.
From stdpp Require Import base option list strings gmap fin_maps.

Local Open Scope Z_scope.
Local Open Scope string_scope.
Local Open Scope list_scope.

(** ** Go values *)

Abbreviation gomap K V := (option (gmap K V)) (only parsing).
Abbreviation ptr A := (option A) (only parsing).
Abbreviation bytes := (list byte) (only parsing).
Abbreviation error := string (only parsing).

Inductive result (A : Type) : Type :=
| Ok (a : A)
| Err (err : error).
Arguments Ok {A} a.
Arguments Err {A} err.

(** What a call does: it returns, or the goroutine panics (a nil pointer
    dereference or a method call on a nil interface). *)
Inductive outcome (A : Type) : Type :=
| Done (r : A)
| Panic.
Arguments Done {A} r.
Arguments Panic {A}.

(** [v, ok := m[k]]: a nil map has no keys. *)
Definition index {K} `{Countable K} {V} (m : gomap K V) (k : K) : option V :=
  match m with
  | Some entries => entries !! k
  | None => None
  end.

(** [m[k]] where the element type is itself a map or a pointer: the zero
    value, nil, when the key is absent. *)
Definition at_key {K} `{Countable K} {V} (m : gomap K (option V)) (k : K) : option V :=
  match index m k with
  | Some v => v
  | None => None
  end.

(** [for name, f := range m]: the entries, in some order. *)
Definition range {K} `{Countable K} {V} (m : gomap K V) : list (K * V) :=
  match m with
  | Some entries => map_to_list entries
  | None => []
  end.

Definition wrap64 (z : Z) : Z := (z + 2 ^ 63) mod 2 ^ 64 - 2 ^ 63.
Definition int64_sub (x y : Z) : Z := wrap64 (x - y).
Definition int64_div (x y : Z) : Z := wrap64 (Z.quot x y).
Definition is_int64 (z : Z) : Prop := - 2 ^ 63 <= z < 2 ^ 63.

(** [strings.Contains s sub], as a proposition. *)
Definition Contains (sub s : string) : Prop :=
  ∃ before after : string, s = before +:+ sub +:+ after.

(** ** Data model *)

(** The declarations of package [birdwatcher], [archive], [envdetect],
    [packageservice], [artifact] and [ssm] are not part of the file; the
    records below have the fields the service reads and writes. *)

Record PackageInfo := { FileName : string }.

Record FileInfo := { Checksums : gomap string string }.

Record Manifest := {
  Version : string;
  Packages : gomap string (gomap string (gomap string (ptr PackageInfo)));
  Files : gomap string (ptr FileInfo);
}.

(** [archive.File] *)
Record File := { Name : string; Info : FileInfo }.

Record OperatingSystem := {
  Platform : string;
  PlatformVersion : string;
  Architecture : string;
}.

Record Ec2Infrastructure := {
  InstanceID : string;
  InstanceType : string;
  Region : string;
  AvailabilityZone : string;
}.

(** Modelled from the spec: the type [envdetect.Environment], whose
    declaration is missing. The environment collector "reports platform name,
    platform version, CPU architecture, and cloud-instance attributes" and
    "may fail", in which case the reporter goes on "with partial/empty
    attributes": the collector hands back a record of attributes together
    with its error, and the attributes can be read whether or not there is an
    error. *)
Record Environment := {
  OperatingSystem_ : OperatingSystem;
  Ec2Infrastructure_ : Ec2Infrastructure;
}.

(** [packageservice.Trace] and [packageservice.PackageResult] *)
Record Trace := {
  Operation : string;
  Exitcode : Z;
  Timing : Z;
}.

Record PackageResult := {
  PackageName : string;
  ResultVersion : string;
  PreviousPackageVersion : string;
  ResultOperation : string;
  ResultExitcode : Z;
  ResultTiming : Z;
  ResultTrace : list Trace;
}.

(** [ssm.ConfigurePackageResultStep] and [ssm.PutConfigurePackageResultInput];
    their pointer fields are set from addresses of variables, so they are
    never nil except [PreviousPackageVersion]. *)
Record ConfigurePackageResultStep := {
  Action : string;
  StepResult : Z;
  StepTiming : Z;
}.

Record PutConfigurePackageResultInput := {
  InputPackageName : string;
  InputPackageVersion : string;
  InputPreviousPackageVersion : ptr string;
  InputOperation : string;
  OverallTiming : Z;
  InputResult : Z;
  Attributes : gmap string string;
  Steps : list ConfigurePackageResultStep;
}.

(** [artifact.DownloadInput] and [artifact.DownloadOutput] *)
Record DownloadInput := {
  SourceURL : string;
  SourceChecksums : gomap string string;
}.

Record DownloadOutput := { LocalFilePath : string }.

(** ** Collaborators *)

(** [packageservice.ManifestCache]: the store is a state of type [C]. A
    write may fail and may change the store even then. *)
Class ManifestCache (C : Type) := {
  ReadManifest : C → string → string → result bytes;
  WriteManifest : C → string → string → bytes → C * option error;
}.

(** Modelled from the spec: the cache adapter, whose implementation is
    missing, is "an opaque key-value store keyed by resource identifier +
    version": a write under one key leaves what is read under every other key
    as it was, and a successful write is read back. *)
Class KeyValueCache (C : Type) `{ManifestCache C} := {
  read_write_other c arn ver data arn' ver' :
    (arn, ver) ≠ (arn', ver') →
    ReadManifest (WriteManifest c arn ver data).1 arn' ver' = ReadManifest c arn' ver';
  read_write_same c arn ver data :
    (WriteManifest c arn ver data).2 = None →
    ReadManifest (WriteManifest c arn ver data).1 arn ver = Ok data;
}.

(** [archive.IPackageArchive] *)
Record IPackageArchive := {
  GetResourceVersion : string → string → string * string;
  GetResourceArn : Manifest → string;
  DownloadArchiveInfo : string → string → result string;
  GetFileDownloadLocation : File → string → string → result string;
}.

(** [envdetect.Collector]: the environment and the error it returns. *)
Record Collector := { CollectData : Environment * option error }.

(** [NanoTime]: the reading of the clock at the one call an operation makes. *)
Record NanoTime := { NowUnixNano : Z }.

(** [facade.BirdwatcherFacade]: only the error of the call is used. *)
Record BirdwatcherFacade := {
  PutConfigurePackageResult : PutConfigurePackageResultInput → option error;
}.

(** [birdwatcher.Networkdep] *)
Record NetworkDep := {
  Download : DownloadInput → DownloadOutput * option error;
}.

(** [PackageService]; the cache handle is the world's store. *)
Record PackageService := {
  pkgSvcName : string;
  facadeClient : BirdwatcherFacade;
  collector : Collector;
  timeProvider : NanoTime;
  archive : option IPackageArchive;
}.

(** ** The world: the store and the log of collaborator calls *)

Inductive Event :=
| EvReadManifest (arn ver : string)
| EvWriteManifest (arn ver : string) (data : bytes)
| EvDownloadArchiveInfo (name ver : string)
| EvCollectData
| EvGetFileDownloadLocation (file : File) (name ver : string)
| EvDownload (input : DownloadInput)
| EvNowUnixNano
| EvPutConfigurePackageResult (input : PutConfigurePackageResultInput).

Record World (C : Type) := MkWorld { cache : C; events : list Event }.
Arguments MkWorld {C} cache events.
Arguments cache {C} w.
Arguments events {C} w.

Definition St (C A : Type) : Type := World C → A * World C.

Definition ret {C A} (a : A) : St C A := λ w, (a, w).
Definition bind {C A B} (m : St C A) (k : A → St C B) : St C B :=
  λ w, let '(a, w') := m w in k a w'.

Declare Scope st_scope.
Delimit Scope st_scope with st.
Notation "'do' x <- m ; k" := (bind m (λ x, k))
  (at level 10, x name, m at level 100, k at level 200) : st_scope.
Local Open Scope st_scope.

Definition emit {C} (e : Event) : St C unit :=
  λ w, (tt, MkWorld (cache w) (events w ++ [e])).

(** The calls of the manifest store, of file selection and download, and the
    call that fetches a fresh manifest. *)
Definition isManifestStoreEvent (e : Event) : Prop :=
  match e with
  | EvReadManifest _ _ | EvWriteManifest _ _ _ | EvDownloadArchiveInfo _ _ => True
  | _ => False
  end.

Definition isSelectionOrDownloadEvent (e : Event) : Prop :=
  match e with
  | EvCollectData | EvGetFileDownloadLocation _ _ _ | EvDownload _ => True
  | _ => False
  end.

Definition isFreshDownloadEvent (e : Event) : Prop :=
  match e with
  | EvDownloadArchiveInfo _ _ | EvWriteManifest _ _ _ => True
  | _ => False
  end.

(** A call that is not one to the archive, or is one for the given package
    and version. *)
Definition archiveCallFor (name ver : string) (e : Event) : Prop :=
  match e with
  | EvDownloadArchiveInfo n v | EvGetFileDownloadLocation _ n v => n = name ∧ v = ver
  | _ => True
  end.

(** ** Selector resolver *)

Section Selector.
Context {V : Type}.

(** The body shared by the three [matchPackageSelector*] functions, which
    differ in the type of the dictionary only. *)
Definition matchPackageSelector (key : string) (dict : gomap string V) : string * bool :=
  match index dict key with
  | Some _ => (key, true)
  | None =>
      match index dict "_any" with
      | Some _ => ("_any", true)
      | None => ("", false)
      end
  end.
End Selector.

Definition matchPackageSelectorPlatform
    (key : string) (dict : gomap string (gomap string (gomap string (ptr PackageInfo)))) :
    string * bool :=
  matchPackageSelector key dict.

Definition matchPackageSelectorVersion
    (key : string) (dict : gomap string (gomap string (ptr PackageInfo))) : string * bool :=
  matchPackageSelector key dict.

Definition matchPackageSelectorArch
    (key : string) (dict : gomap string (ptr PackageInfo)) : string * bool :=
  matchPackageSelector key dict.

Definition NoMatchError (platform version arch : string) : error :=
  "no manifest found for platform: " +:+ platform +:+ ", version " +:+ version
    +:+ ", architecture " +:+ arch.

(** The three nested [if]s of [extractPackageInfo], once the environment is
    known. Each level indexes the tree again from the root. *)
Definition selectPackageInfo (os : OperatingSystem) (manifest : Manifest) :
    result (ptr PackageInfo) :=
  let no_match := Err (NoMatchError (Platform os) (PlatformVersion os) (Architecture os)) in
  match matchPackageSelectorPlatform (Platform os) (Packages manifest) with
  | (keyplatform, true) =>
      match matchPackageSelectorVersion (PlatformVersion os)
              (at_key (Packages manifest) keyplatform) with
      | (keyversion, true) =>
          match matchPackageSelectorArch (Architecture os)
                  (at_key (at_key (Packages manifest) keyplatform) keyversion) with
          | (keyarch, true) =>
              Ok (at_key (at_key (at_key (Packages manifest) keyplatform) keyversion) keyarch)
          | _ => no_match
          end
      | _ => no_match
      end
  | _ => no_match
  end.

Definition collectData {C} (ds : PackageService) : St C (Environment * option error) :=
  do _ <- emit EvCollectData; ret (CollectData (collector ds)).

Definition extractPackageInfo {C} (ds : PackageService) (manifest : Manifest) :
    St C (result (ptr PackageInfo)) :=
  do r <- collectData ds;
  match r with
  | (_, Some err) => ret (Err ("failed to collect data: " +:+ err))
  | (env, None) => ret (selectPackageInfo (OperatingSystem_ env) manifest)
  end.

(** ** [reflect.DeepEqual] on manifests *)

Definition deepEqualPtr {A} (eqv : A → A → bool) (p q : ptr A) : bool :=
  match p, q with
  | None, None => true
  | Some x, Some y => eqv x y
  | _, _ => false
  end.

(** Maps: both nil or both not, the same length, and every key of the first
    bound in the second to a deeply equal value. *)
Definition deepEqualMap {V} (eqv : V → V → bool) (m1 m2 : gomap string V) : bool :=
  match m1, m2 with
  | None, None => true
  | Some a, Some b =>
      bool_decide (size a = size b)
      && forallb (λ kv, match b !! kv.1 with
                        | Some v2 => eqv kv.2 v2
                        | None => false
                        end) (map_to_list a)
  | _, _ => false
  end.

Definition deepEqualString (a b : string) : bool := bool_decide (a = b).

Definition deepEqualPackageInfo (a b : PackageInfo) : bool :=
  deepEqualString (FileName a) (FileName b).

Definition deepEqualFileInfo (a b : FileInfo) : bool :=
  deepEqualMap deepEqualString (Checksums a) (Checksums b).

Definition deepEqualManifest (a b : Manifest) : bool :=
  deepEqualString (Version a) (Version b)
  && deepEqualMap (deepEqualMap (deepEqualMap (deepEqualPtr deepEqualPackageInfo)))
       (Packages a) (Packages b)
  && deepEqualMap (deepEqualPtr deepEqualFileInfo) (Files a) (Files b).

(** [reflect.DeepEqual(parsedManifest, cachedManifest)], on two pointers. *)
Definition DeepEqual (a b : ptr Manifest) : bool := deepEqualPtr deepEqualManifest a b.

(** ** The service *)

Section Service.
Context {C : Type} `{ManifestCache C}.

(** [encoding/json]'s decoder, for the type [birdwatcher.Manifest]. *)
Variable json_Decode : bytes → result Manifest.

(** The global [birdwatcher.Networkdep]. *)
Variable Networkdep : NetworkDep.

(** Whether the pointers [&t.Operation] and [&t.Exitcode] taken in one
    iteration of the loop over the trace address storage of that iteration
    alone (a loop variable per iteration, as from Go 1.22 on, or a trace of
    pointers, where they address the entry itself), or the one variable of
    the whole loop (earlier Go, with a trace of struct values). The
    declaration of the trace and the version of the language are not part of
    the file, so the reporter is modelled for both. *)
Variable loopvar_per_iteration : bool.

(** *** Calls to the collaborators *)

Definition readManifest (arn ver : string) : St C (result bytes) :=
  do _ <- emit (EvReadManifest arn ver);
  λ w, (ReadManifest (cache w) arn ver, w).

Definition writeManifest (arn ver : string) (data : bytes) : St C (option error) :=
  do _ <- emit (EvWriteManifest arn ver data);
  λ w, let '(c, err) := WriteManifest (cache w) arn ver data in
       (err, MkWorld c (events w)).

Definition downloadArchiveInfo (ar : IPackageArchive) (name ver : string) :
    St C (result string) :=
  do _ <- emit (EvDownloadArchiveInfo name ver);
  ret (DownloadArchiveInfo ar name ver).

Definition getFileDownloadLocation (ar : IPackageArchive) (file : File)
    (name ver : string) : St C (result string) :=
  do _ <- emit (EvGetFileDownloadLocation file name ver);
  ret (GetFileDownloadLocation ar file name ver).

Definition download (input : DownloadInput) : St C (DownloadOutput * option error) :=
  do _ <- emit (EvDownload input);
  ret (Download Networkdep input).

Definition nowUnixNano (ds : PackageService) : St C Z :=
  do _ <- emit EvNowUnixNano;
  ret (NowUnixNano (timeProvider ds)).

Definition putConfigurePackageResult (ds : PackageService)
    (input : PutConfigurePackageResultInput) : St C (option error) :=
  do _ <- emit (EvPutConfigurePackageResult input);
  ret (PutConfigurePackageResult (facadeClient ds) input).

(** *** Manifest store *)

Definition parseManifest (data : bytes) : result Manifest :=
  match json_Decode data with
  | Ok manifest => Ok manifest
  | Err err => Err ("failed to decode manifest: " +:+ err)
  end.

Definition readManifestFromCache (packageName version : string) :
    St C (result Manifest) :=
  do r <- readManifest packageName version;
  match r with
  | Err err => ret (Err err)
  | Ok data => ret (parseManifest data)
  end.

(** What a store holds under a key, parsed: the value
    [readManifestFromCache] returns when run on that store. *)
Definition cachedManifest (c : C) (arn ver : string) : result Manifest :=
  match ReadManifest c arn ver with
  | Err err => Err err
  | Ok data => parseManifest data
  end.

Definition CacheWriteError (err : error) : error :=
  "failed to write manifest to file: " +:+ err.

(** The manifest pointer that comes with an error is nil. *)
Definition manifestPtr (r : result Manifest) : ptr Manifest :=
  match r with
  | Ok manifest => Some manifest
  | Err _ => None
  end.

Definition downloadManifest (ds : option PackageService) (packageName version : string) :
    St C (outcome (result Manifest * bool)) :=
  match ds with
  | None => ret (Done (Err "PackageService doesn't exist", false))
  | Some ds =>
      match archive ds with
      | None => ret Panic
      | Some ar =>
          do r <- downloadArchiveInfo ar packageName version;
          match r with
          | Err err => ret (Done (Err ("failed to download manifest - " +:+ err), false))
          | Ok manifest =>
              let byteManifest := list_byte_of_string manifest in
              match parseManifest byteManifest with
              | Err err => ret (Done (Err err, false))
              | Ok parsedManifest =>
                  do cachedManifest <-
                    readManifestFromCache (GetResourceArn ar parsedManifest)
                      (Version parsedManifest);
                  let isSameAsCache :=
                    DeepEqual (Some parsedManifest) (manifestPtr cachedManifest) in
                  do werr <-
                    writeManifest (GetResourceArn ar parsedManifest)
                      (Version parsedManifest) byteManifest;
                  match werr with
                  | Some err =>
                      ret (Done (Err (CacheWriteError err), isSameAsCache))
                  | None => ret (Done (Ok parsedManifest, isSameAsCache))
                  end
              end
          end
      end
  end.

(** [DownloadManifest]: the resource identifier, the version, the flag and
    the error. *)
Definition DownloadManifest (ds : PackageService) (packageName version : string) :
    St C (outcome (result (string * string) * bool)) :=
  do r <- downloadManifest (Some ds) packageName version;
  match r with
  | Panic => ret Panic
  | Done (Err err, isSameAsCache) => ret (Done (Err err, isSameAsCache))
  | Done (Ok manifest, isSameAsCache) =>
      match archive ds with
      | None => ret Panic
      | Some ar =>
          ret (Done (Ok (GetResourceArn ar manifest, Version manifest), isSameAsCache))
      end
  end.

(** *** Artifact locator and downloader *)

(** The loop over [manifest.Files]: the file info and the name it leaves in
    the two variables, both zero when no name matches. Comparing a name
    with [pkginfo.FileName] dereferences [pkginfo]. *)
Fixpoint scanFiles (pkginfo : ptr PackageInfo) (entries : list (string * ptr FileInfo)) :
    outcome (ptr FileInfo * string) :=
  match entries with
  | [] => Done (None, "")
  | (name, f) :: rest =>
      match pkginfo with
      | None => Panic
      | Some info =>
          if decide (name = FileName info) then Done (f, name)
          else scanFiles pkginfo rest
      end
  end.

(** [%+v] of a [*PackageInfo]. *)
Definition showPackageInfo (pkginfo : ptr PackageInfo) : string :=
  match pkginfo with
  | None => "<nil>"
  | Some info => "&{FileName:" +:+ FileName info +:+ "}"
  end.

Definition FileNotFoundError (pkginfo : ptr PackageInfo) : error :=
  "failed to find file for " +:+ showPackageInfo pkginfo.

Definition findFileFromManifest (ds : PackageService) (manifest : Manifest) :
    St C (outcome (result File)) :=
  do r <- extractPackageInfo ds manifest;
  match r with
  | Err err => ret (Done (Err ("failed to find platform: " +:+ err)))
  | Ok pkginfo =>
      match scanFiles pkginfo (range (Files manifest)) with
      | Panic => ret Panic
      | Done (None, _) => ret (Done (Err (FileNotFoundError pkginfo)))
      | Done (Some fileInfo, filename) =>
          ret (Done (Ok {| Name := filename; Info := fileInfo |}))
      end
  end.

Definition DownloadError (sourceUrl : string) (downloadErr : option error) : error :=
  let errMessage := "failed to download installation package reliably, " +:+ sourceUrl in
  match downloadErr with
  | Some err => errMessage +:+ ", " +:+ err
  | None => errMessage
  end.

Definition downloadFile (ds : option PackageService) (file : ptr File)
    (packagename version : string) : St C (result string) :=
  match ds, file with
  | Some ds, Some file =>
      match archive ds with
      | Some ar =>
          do loc <- getFileDownloadLocation ar file packagename version;
          match loc with
          | Err err => ret (Err err)
          | Ok sourceUrl =>
              let downloadInput :=
                {| SourceURL := sourceUrl; SourceChecksums := Checksums (Info file) |} in
              do r <- download downloadInput;
              let downloadOutput := r.1 in
              let downloadErr := r.2 in
              if bool_decide (downloadErr ≠ None)
                 || bool_decide (LocalFilePath downloadOutput = "")
              then ret (Err (DownloadError (SourceURL downloadInput) downloadErr))
              else ret (Ok (LocalFilePath downloadOutput))
          end
      | None => ret (Err "Either package service does not exist or does not have archive information or the file information does not exist")
      end
  | _, _ => ret (Err "Either package service does not exist or does not have archive information or the file information does not exist")
  end.

(** The second half of [DownloadArtifact], from the call of
    [findFileFromManifest] on, which both ways of getting the manifest
    lead to. *)
Definition locateAndDownload (ds : PackageService) (manifest : Manifest)
    (packageName version : string) : St C (outcome (result string)) :=
  do f <- findFileFromManifest ds manifest;
  match f with
  | Panic => ret Panic
  | Done (Err err) => ret (Done (Err err))
  | Done (Ok file) =>
      do r <- downloadFile (Some ds) (Some file) packageName version;
      ret (Done r)
  end.

Definition DownloadArtifact (ds : PackageService) (packageName version : string) :
    St C (outcome (result string)) :=
  do cached <- readManifestFromCache packageName version;
  match cached with
  | Ok manifest => locateAndDownload ds manifest packageName version
  | Err _ =>
      do r <- downloadManifest (Some ds) packageName version;
      match r with
      | Panic => ret Panic
      | Done (Err err, _) =>
          ret (Done (Err ("failed to download the manifest: " +:+ err)))
      | Done (Ok manifest, _) => locateAndDownload ds manifest packageName version
      end
  end.

(** *** Result reporter *)

(** [(t.Timing - result.Timing) / 1000000] *)
Definition elapsedMillis (timing start : Z) : Z :=
  int64_div (int64_sub timing start) 1000000.

(** What the pointers taken in the iteration over [t] read once the loop is
    over: the entry itself, or the last value of the one loop variable. *)
Definition loopVar (trace : list Trace) (t : Trace) : Trace :=
  if loopvar_per_iteration then t else List.last trace t.

Definition reportSteps (result : PackageResult) : list ConfigurePackageResultStep :=
  List.map (λ t,
       {| Action := Operation (loopVar (ResultTrace result) t);
          StepResult := Exitcode (loopVar (ResultTrace result) t);
          StepTiming := elapsedMillis (Timing t) (ResultTiming result) |})
    (ResultTrace result).

Definition reportAttributes (env : Environment) : gmap string string :=
  list_to_map
    [ ("platformName", Platform (OperatingSystem_ env));
      ("platformVersion", PlatformVersion (OperatingSystem_ env));
      ("architecture", Architecture (OperatingSystem_ env));
      ("instanceID", InstanceID (Ec2Infrastructure_ env));
      ("instanceType", InstanceType (Ec2Infrastructure_ env));
      ("region", Region (Ec2Infrastructure_ env));
      ("availabilityZone", AvailabilityZone (Ec2Infrastructure_ env)) ].

Definition reportInput (result : PackageResult) (env : Environment) (now : Z) :
    PutConfigurePackageResultInput :=
  {| InputPackageName := PackageName result;
     InputPackageVersion := ResultVersion result;
     InputPreviousPackageVersion :=
       if decide (PreviousPackageVersion result = "") then None
       else Some (PreviousPackageVersion result);
     InputOperation := ResultOperation result;
     OverallTiming := elapsedMillis now (ResultTiming result);
     InputResult := ResultExitcode result;
     Attributes := reportAttributes env;
     Steps := reportSteps result |}.

Definition ReportResult (ds : PackageService) (result : PackageResult) :
    St C (option error) :=
  do r <- collectData ds;
  let env := r.1 in
  do now <- nowUnixNano ds;
  do err <- putConfigurePackageResult ds (reportInput result env now);
  match err with
  | Some err => ret (Some ("failed to report results: " +:+ err))
  | None => ret None
  end.
End Service.

(** ** The selector resolver, as the specification words it *)

(** "Look up [key]; if absent, fall back to key [_any]": the entry found at
    one level, if any. *)
Definition lookupOrAny {V} (key : string) (level : gomap string V) : option V :=
  match index level key with
  | Some v => Some v
  | None => index level "_any"
  end.

(** Three sequential lookups, each inside the sub-map the previous one
    chose. *)
Definition resolveVariant (manifest : Manifest) (platform version arch : string) :
    result (ptr PackageInfo) :=
  match lookupOrAny platform (Packages manifest) with
  | None => Err (NoMatchError platform version arch)
  | Some versions =>
      match lookupOrAny version versions with
      | None => Err (NoMatchError platform version arch)
      | Some archs =>
          match lookupOrAny arch archs with
          | None => Err (NoMatchError platform version arch)
          | Some variant => Ok variant
          end
      end
  end.

(** ** A store, a decoder and collaborators to run the service on *)

(** An in-memory store that can be mounted read-only. *)
Record MemCache := {
  entries : gmap (string * string) bytes;
  readonly : bool;
}.

#[export] Instance MemCache_ManifestCache : ManifestCache MemCache := {|
  ReadManifest c arn ver :=
    match entries c !! (arn, ver) with
    | Some data => Ok data
    | None => Err "manifest not found"
    end;
  WriteManifest c arn ver data :=
    if readonly c then (c, Some "read-only file system")
    else ({| entries := <[(arn, ver) := data]> (entries c); readonly := false |}, None)
|}.

#[export] Instance MemCache_KeyValueCache : KeyValueCache MemCache.
Proof.
  split.
  - intros c arn ver data arn' ver' Hne. simpl.
    destruct (readonly c); simpl; [done|]. by rewrite lookup_insert_ne.
  - intros c arn ver data. simpl.
    destruct (readonly c); simpl; [done|]. by rewrite lookup_insert_eq.
Qed.

(** The manifest without the entry of its file table under [name]. *)
Definition withoutFile (name : string) (manifest : Manifest) : Manifest := {|
  Version := Version manifest;
  Packages := Packages manifest;
  Files := delete name <$> Files manifest;
|}.

Definition emptyCache : MemCache := {| entries := ∅; readonly := false |}.
Definition readonlyCache : MemCache := {| entries := ∅; readonly := true |}.

(** A store that already holds the document the archive serves, under the
    key of the manifest it parses to. *)
Definition warmCache : MemCache := {|
  entries :=
    {[ ("arn:aws:ssm:::package/pkg", "1.0.0") := list_byte_of_string "linux-manifest" ]};
  readonly := false;
|}.

Definition pkgZip : PackageInfo := {| FileName := "pkg.zip" |}.
Definition pkgZipInfo : FileInfo := {| Checksums := Some {[ "sha256" := "abc" ]} |}.

(** The manifest of the specification's end-to-end scenario. *)
Definition linuxManifest : Manifest := {|
  Version := "1.0.0";
  Packages := Some {[ "linux" := Some {[ "_any" := Some {[ "x86_64" := Some pkgZip ]} ]} ]};
  Files := Some {[ "pkg.zip" := Some pkgZipInfo ]};
|}.

(** An exact platform without the host's version, next to a wildcard
    platform that has it. *)
Definition shadowedManifest : Manifest := {|
  Version := "2.0.0";
  Packages :=
    Some {[ "linux" := Some {[ "4.0" := Some {[ "x86_64" := Some pkgZip ]} ]};
            "_any" := Some {[ "5.0" := Some {[ "x86_64" := Some pkgZip ]} ]} ]};
  Files := Some {[ "pkg.zip" := Some pkgZipInfo ]};
|}.

(** A file table that binds the file name to [null]. *)
Definition nullFileManifest : Manifest := {|
  Version := "1.0.0";
  Packages := Packages linuxManifest;
  Files := Some {[ "pkg.zip" := None ]};
|}.

(** A manifest without a selector tree and without a file table. *)
Definition emptyManifest : Manifest := {|
  Version := "1.0.0";
  Packages := None;
  Files := None;
|}.

(** A selector tree that files [null] as the variant of every host. *)
Definition nullVariantManifest : Manifest := {|
  Version := "1.0.0";
  Packages := Some {[ "_any" := Some {[ "_any" := Some {[ "_any" := None ]} ]} ]};
  Files := Files linuxManifest;
|}.

(** A file table with two entries. *)
Definition twoFiles : gomap string (ptr FileInfo) :=
  Some {[ "pkg.zip" := Some pkgZipInfo; "doc.zip" := None ]}.

(** A decoder that knows three documents. *)
Definition stubDecode (data : bytes) : result Manifest :=
  if decide (string_of_list_byte data = "linux-manifest") then Ok linuxManifest
  else if decide (string_of_list_byte data = "shadowed-manifest") then Ok shadowedManifest
  else if decide (string_of_list_byte data = "null-file-manifest") then Ok nullFileManifest
  else Err "invalid character".

Definition stubArchive : IPackageArchive := {|
  GetResourceVersion name ver := (name, ver);
  GetResourceArn manifest := "arn:aws:ssm:::package/pkg";
  DownloadArchiveInfo name ver :=
    if decide (name = "pkg") then Ok "linux-manifest"
    else if decide (name = "broken") then Ok "{"
    else Err "package not found";
  GetFileDownloadLocation file name ver :=
    if decide (name = "") then Err "package name is empty"
    else Ok ("https://" +:+ name +:+ "/" +:+ Name file);
|}.

Definition linuxHost : Environment := {|
  OperatingSystem_ :=
    {| Platform := "linux"; PlatformVersion := "5.0"; Architecture := "x86_64" |};
  Ec2Infrastructure_ :=
    {| InstanceID := "i-0"; InstanceType := "t2.micro"; Region := "us-east-1";
       AvailabilityZone := "us-east-1a" |};
|}.

Definition oldLinuxHost : Environment := {|
  OperatingSystem_ :=
    {| Platform := "linux"; PlatformVersion := "4.0"; Architecture := "x86_64" |};
  Ec2Infrastructure_ := Ec2Infrastructure_ linuxHost;
|}.

Definition windowsHost : Environment := {|
  OperatingSystem_ :=
    {| Platform := "windows"; PlatformVersion := "5.0"; Architecture := "x86_64" |};
  Ec2Infrastructure_ := Ec2Infrastructure_ linuxHost;
|}.

Definition noHost : Environment := {|
  OperatingSystem_ := {| Platform := ""; PlatformVersion := ""; Architecture := "" |};
  Ec2Infrastructure_ :=
    {| InstanceID := ""; InstanceType := ""; Region := ""; AvailabilityZone := "" |};
|}.

Definition stubFacade : BirdwatcherFacade := {| PutConfigurePackageResult _ := None |}.

Definition stubService (env : Environment) (collectErr : option error) : PackageService := {|
  pkgSvcName := "birdwatcher";
  facadeClient := stubFacade;
  collector := {| CollectData := (env, collectErr) |};
  timeProvider := {| NowUnixNano := 1005000000 |};
  archive := Some stubArchive;
|}.

(** A service whose archive handle is nil, and one whose facade rejects
    every report. *)
Definition noArchiveService : PackageService := {|
  pkgSvcName := "birdwatcher";
  facadeClient := stubFacade;
  collector := {| CollectData := (linuxHost, None) |};
  timeProvider := {| NowUnixNano := 1005000000 |};
  archive := None;
|}.

Definition rejectedService : PackageService := {|
  pkgSvcName := "birdwatcher";
  facadeClient := {| PutConfigurePackageResult _ := Some "AccessDenied" |};
  collector := {| CollectData := (linuxHost, None) |};
  timeProvider := {| NowUnixNano := 1005000000 |};
  archive := Some stubArchive;
|}.

(** A downloader that cannot reach the host [unreachable]. *)
Definition stubNetwork : NetworkDep := {|
  Download input :=
    if decide (SourceURL input = "https://unreachable/pkg.zip")
    then ({| LocalFilePath := "" |}, Some "connection refused")
    else ({| LocalFilePath := "/var/lib/pkg.zip" |}, None)
|}.

Definition startWorld (c : MemCache) : World MemCache := MkWorld c [].

(** The scenario of the specification: one step, two milliseconds in. *)
Definition oneStepResult : PackageResult := {|
  PackageName := "pkg";
  ResultVersion := "1.0.0";
  PreviousPackageVersion := "";
  ResultOperation := "Install";
  ResultExitcode := 0;
  ResultTiming := 1000000000;
  ResultTrace := [ {| Operation := "install"; Exitcode := 0; Timing := 1002000000 |} ];
|}.

Definition twoStepResult : PackageResult := {|
  PackageName := "pkg";
  ResultVersion := "1.0.0";
  PreviousPackageVersion := "";
  ResultOperation := "Install";
  ResultExitcode := 1;
  ResultTiming := 1000000000;
  ResultTrace :=
    [ {| Operation := "download"; Exitcode := 0; Timing := 1001000000 |};
      {| Operation := "install"; Exitcode := 1; Timing := 1003000000 |} ];
|}.

(** A step stamped one nanosecond before the start. *)
Definition earlyStepResult : PackageResult := {|
  PackageName := "pkg";
  ResultVersion := "1.0.0";
  PreviousPackageVersion := "0.9.0";
  ResultOperation := "Install";
  ResultExitcode := 0;
  ResultTiming := 1;
  ResultTrace := [ {| Operation := "install"; Exitcode := 0; Timing := 0 |} ];
|}.

(** ** Basic facts *)

Lemma string_app_assoc (a b c : string) : (a +:+ b) +:+ c = a +:+ b +:+ c.
Proof.
  induction a as [|ch a IH]; [done|].
  change (String ch ((a +:+ b) +:+ c) = String ch (a +:+ b +:+ c)). by f_equal.
Qed.

Lemma string_app_nil_r (a : string) : a +:+ "" = a.
Proof.
  induction a as [|ch a IH]; [done|].
  change (String ch (a +:+ "") = String ch a). by f_equal.
Qed.

Lemma index_at_key {K} `{Countable K} {V} (m : gomap K (option V)) (k : K) (v : option V) :
  index m k = Some v → at_key m k = v.
Proof. unfold at_key. by intros ->. Qed.

Lemma matchPackageSelector_lookupOrAny {V} (key : string) (dict : gomap string (option V)) :
  match matchPackageSelector key dict with
  | (k, true) => lookupOrAny key dict = Some (at_key dict k)
  | (_, false) => lookupOrAny key dict = None
  end.
Proof.
  unfold matchPackageSelector, lookupOrAny.
  destruct (index dict key) as [v|] eqn:Hkey.
  - by rewrite (index_at_key _ _ _ Hkey).
  - destruct (index dict "_any") as [v|] eqn:Hany; [|done].
    by rewrite (index_at_key _ _ _ Hany).
Qed.

Lemma selectPackageInfo_resolveVariant (os : OperatingSystem) (manifest : Manifest) :
  selectPackageInfo os manifest
  = resolveVariant manifest (Platform os) (PlatformVersion os) (Architecture os).
Proof.
  unfold selectPackageInfo, resolveVariant,
    matchPackageSelectorPlatform, matchPackageSelectorVersion, matchPackageSelectorArch.
  pose proof (matchPackageSelector_lookupOrAny (Platform os) (Packages manifest)) as Hp.
  destruct (matchPackageSelector (Platform os) (Packages manifest)) as [kp [|]];
    rewrite Hp; [|done].
  pose proof (matchPackageSelector_lookupOrAny (PlatformVersion os)
                (at_key (Packages manifest) kp)) as Hv.
  destruct (matchPackageSelector (PlatformVersion os) (at_key (Packages manifest) kp))
    as [kv [|]]; rewrite Hv; [|done].
  pose proof (matchPackageSelector_lookupOrAny (Architecture os)
                (at_key (at_key (Packages manifest) kp) kv)) as Ha.
  destruct (matchPackageSelector (Architecture os)
              (at_key (at_key (Packages manifest) kp) kv)) as [ka [|]];
    by rewrite Ha.
Qed.

Lemma extractPackageInfo_run {C} (ds : PackageService) (manifest : Manifest) (w : World C) :
  extractPackageInfo ds manifest w
  = (match CollectData (collector ds) with
     | (_, Some err) => Err ("failed to collect data: " +:+ err)
     | (env, None) => selectPackageInfo (OperatingSystem_ env) manifest
     end,
     MkWorld (cache w) (events w ++ [EvCollectData])).
Proof.
  unfold extractPackageInfo, collectData, bind, emit, ret. simpl.
  by destruct (CollectData (collector ds)) as [env [err|]].
Qed.

(** C1. For every manifest and every host triple the collector reports,
    variant resolution is three sequential level-local lookups (the exact key,
    else [_any], else failure), each made inside the sub-map the previous
    level committed to; in particular, when the platform exists exactly but
    holds neither the host's version nor [_any], resolution fails, whatever
    the other platform branches hold, with the no-match error, whose message
    is the fixed text around the host's platform, version and architecture
    and so names the three of them. *)
Theorem extractPackageInfo_level_local
    {C} (ds : PackageService) (manifest : Manifest) (env : Environment) (w : World C) :
  CollectData (collector ds) = (env, None) →
  let platform := Platform (OperatingSystem_ env) in
  let version := PlatformVersion (OperatingSystem_ env) in
  let arch := Architecture (OperatingSystem_ env) in
  let message :=
    "no manifest found for platform: " +:+ platform +:+ ", version " +:+ version
      +:+ ", architecture " +:+ arch in
  (extractPackageInfo ds manifest w).1 = resolveVariant manifest platform version arch
  ∧ (∀ versions,
       index (Packages manifest) platform = Some versions →
       index versions version = None →
       index versions "_any" = None →
       (extractPackageInfo ds manifest w).1 = Err message)
  ∧ Contains platform message
  ∧ Contains version message
  ∧ Contains arch message.
Proof.
  intros Hcollect platform version arch message.
  rewrite extractPackageInfo_run, Hcollect. simpl.
  rewrite selectPackageInfo_resolveVariant. split; [done|]. split.
  - intros versions Hp Hv Hany.
    unfold resolveVariant, lookupOrAny at 1.
    fold platform version arch. rewrite Hp.
    unfold lookupOrAny at 1. by rewrite Hv, Hany.
  - subst message. split; [|split].
    + by exists "no manifest found for platform: ",
                (", version " +:+ version +:+ ", architecture " +:+ arch).
    + exists ("no manifest found for platform: " +:+ platform +:+ ", version "),
             (", architecture " +:+ arch).
      by rewrite !string_app_assoc.
    + exists ("no manifest found for platform: " +:+ platform +:+ ", version "
              +:+ version +:+ ", architecture "), "".
      by rewrite string_app_nil_r, !string_app_assoc.
Qed.

Lemma extractPackageInfo_level_local_witness :
  lookupOrAny "5.0" (at_key (Packages shadowedManifest) "_any") ≠ None
  ∧ (extractPackageInfo (stubService linuxHost None) shadowedManifest
       (startWorld emptyCache)).1
    = Err "no manifest found for platform: linux, version 5.0, architecture x86_64".
Proof.
  split; [by vm_compute|].
  refine (proj1 (proj2 (extractPackageInfo_level_local (stubService linuxHost None)
                          shadowedManifest linuxHost (startWorld emptyCache) eq_refl))
            (Some {[ "4.0" := Some {[ "x86_64" := Some pkgZip ]} ]}) _ _ _);
    by vm_compute.
Defined.

(** ** [reflect.DeepEqual] is equality of the embedded values *)

Lemma deepEqualString_eq (a b : string) : deepEqualString a b = true ↔ a = b.
Proof. unfold deepEqualString. apply bool_decide_eq_true. Qed.

Lemma deepEqualPtr_eq {A} (eqv : A → A → bool) :
  (∀ x y, eqv x y = true ↔ x = y) →
  ∀ p q, deepEqualPtr eqv p q = true ↔ p = q.
Proof.
  intros Heqv [x|] [y|]; simpl; try (split; [discriminate|congruence]); [|done].
  rewrite Heqv. split; congruence.
Qed.

Lemma deepEqualMap_eq {V} (eqv : V → V → bool) :
  (∀ x y, eqv x y = true ↔ x = y) →
  ∀ m1 m2, deepEqualMap eqv m1 m2 = true ↔ m1 = m2.
Proof.
  intros Heqv [a|] [b|]; simpl; try (split; [discriminate|congruence]); [|done].
  rewrite andb_true_iff, bool_decide_eq_true, forallb_forall. split.
  - intros [Hsize Hall]. f_equal. apply map_subseteq_size_eq; [|lia].
    apply map_subseteq_spec. intros k v Hk.
    specialize (Hall (k, v)). simpl in Hall.
    destruct (b !! k) as [v2|].
    + f_equal. symmetry. apply Heqv, Hall.
      by apply list_elem_of_In, elem_of_map_to_list.
    + discriminate Hall. by apply list_elem_of_In, elem_of_map_to_list.
  - intros [= <-]. split; [done|]. intros [k v] Hin. simpl.
    apply list_elem_of_In, elem_of_map_to_list in Hin. rewrite Hin. by apply Heqv.
Qed.

Lemma deepEqualPackageInfo_eq (a b : PackageInfo) :
  deepEqualPackageInfo a b = true ↔ a = b.
Proof.
  destruct a as [x], b as [y]. unfold deepEqualPackageInfo. simpl.
  rewrite deepEqualString_eq. split; congruence.
Qed.

Lemma deepEqualFileInfo_eq (a b : FileInfo) : deepEqualFileInfo a b = true ↔ a = b.
Proof.
  destruct a as [x], b as [y]. unfold deepEqualFileInfo. simpl.
  rewrite (deepEqualMap_eq _ deepEqualString_eq). split; congruence.
Qed.

Lemma deepEqualManifest_eq (a b : Manifest) : deepEqualManifest a b = true ↔ a = b.
Proof.
  unfold deepEqualManifest. rewrite !andb_true_iff, deepEqualString_eq.
  rewrite (deepEqualMap_eq _ (deepEqualMap_eq _ (deepEqualMap_eq _
             (deepEqualPtr_eq _ deepEqualPackageInfo_eq)))).
  rewrite (deepEqualMap_eq _ (deepEqualPtr_eq _ deepEqualFileInfo_eq)).
  destruct a, b; simpl. split; [intros [[-> ->] ->]; done|intros [= -> -> ->]; done].
Qed.

Lemma DeepEqual_eq (a b : ptr Manifest) : DeepEqual a b = true ↔ a = b.
Proof. apply deepEqualPtr_eq, deepEqualManifest_eq. Qed.

(** ** Properties of the service *)

Section ServiceProperties.
Context {C : Type} `{ManifestCache C}.
Variable json_Decode : bytes → result Manifest.
Variable Networkdep : NetworkDep.
Variable loopvar_per_iteration : bool.

Implicit Types (w : World C) (ds : PackageService) (ar : IPackageArchive).
Implicit Types (manifest parsed : Manifest) (name ver body : string).

(** *** What each operation does to the world *)

Lemma readManifestFromCache_run name ver w :
  readManifestFromCache json_Decode name ver w
  = (cachedManifest json_Decode (cache w) name ver,
     MkWorld (cache w) (events w ++ [EvReadManifest name ver])).
Proof.
  unfold readManifestFromCache, cachedManifest, readManifest, bind, emit, ret. simpl.
  by destruct (ReadManifest (cache w) name ver).
Qed.

(** A fetch and a parse that succeed are followed by one read and one
    write under the manifest's own key. *)
Lemma downloadManifest_fresh ds ar name ver body parsed w :
  archive ds = Some ar →
  DownloadArchiveInfo ar name ver = Ok body →
  parseManifest json_Decode (list_byte_of_string body) = Ok parsed →
  let arn := GetResourceArn ar parsed in
  let data := list_byte_of_string body in
  let written := WriteManifest (cache w) arn (Version parsed) data in
  downloadManifest json_Decode (Some ds) name ver w
  = (Done (match written.2 with
           | Some err => Err (CacheWriteError err)
           | None => Ok parsed
           end,
           DeepEqual (Some parsed)
             (manifestPtr (cachedManifest json_Decode (cache w) arn (Version parsed)))),
     MkWorld written.1
       (events w ++ [EvDownloadArchiveInfo name ver;
                     EvReadManifest arn (Version parsed);
                     EvWriteManifest arn (Version parsed) data])).
Proof.
  intros Har Hfetch Hparse arn data written.
  unfold downloadManifest. rewrite Har.
  unfold downloadArchiveInfo, bind at 1, emit, ret. simpl.
  rewrite Hfetch, Hparse.
  unfold bind at 1. rewrite readManifestFromCache_run. simpl.
  unfold writeManifest, bind, emit, ret. simpl.
  fold arn data. fold written. rewrite <- !app_assoc. simpl.
  by destruct written as [c [err|]].
Qed.

(** A manifest download only calls the archive and the store. *)
Lemma downloadManifest_footprint ds name ver w :
  ∃ evs, events (downloadManifest json_Decode (Some ds) name ver w).2 = events w ++ evs
         ∧ Forall isManifestStoreEvent evs.
Proof.
  destruct (archive ds) as [ar|] eqn:Har.
  2:{ exists []. unfold downloadManifest. rewrite Har. simpl. by rewrite app_nil_r. }
  destruct (DownloadArchiveInfo ar name ver) as [body|err] eqn:Hfetch.
  2:{ exists [EvDownloadArchiveInfo name ver].
      unfold downloadManifest, downloadArchiveInfo, bind, emit, ret.
      rewrite Har. simpl. rewrite Hfetch. simpl.
      split; [done|]. by repeat constructor. }
  destruct (parseManifest json_Decode (list_byte_of_string body)) as [parsed|err] eqn:Hparse.
  2:{ exists [EvDownloadArchiveInfo name ver].
      unfold downloadManifest, downloadArchiveInfo, bind, emit, ret.
      rewrite Har. simpl. rewrite Hfetch, Hparse. simpl.
      split; [done|]. by repeat constructor. }
  rewrite (downloadManifest_fresh ds ar name ver body parsed w Har Hfetch Hparse).
  eexists. split; [reflexivity|]. by repeat constructor.
Qed.

Lemma findFileFromManifest_world ds manifest w :
  (findFileFromManifest ds manifest w).2 = MkWorld (cache w) (events w ++ [EvCollectData]).
Proof.
  unfold findFileFromManifest, bind. rewrite extractPackageInfo_run.
  destruct (match CollectData (collector ds) with
            | (_, Some err) => Err ("failed to collect data: " +:+ err)
            | (env, None) => selectPackageInfo (OperatingSystem_ env) manifest
            end) as [pkginfo|err]; [|done].
  by destruct (scanFiles pkginfo (range (Files manifest))) as [[[fi|] filename]|].
Qed.

Lemma downloadFile_world (dso : option PackageService) (file : ptr File) name ver w :
  ∃ evs, (downloadFile Networkdep dso file name ver w).2
         = MkWorld (cache w) (events w ++ evs)
         ∧ Forall isSelectionOrDownloadEvent evs.
Proof.
  unfold downloadFile.
  destruct dso as [ds|], file as [f|];
    try (exists []; simpl; rewrite app_nil_r; by destruct w).
  destruct (archive ds) as [ar|];
    [|exists []; simpl; rewrite app_nil_r; by destruct w].
  unfold getFileDownloadLocation, download, bind, emit, ret. simpl.
  destruct (GetFileDownloadLocation ar f name ver) as [url|err].
  - exists [EvGetFileDownloadLocation f name ver;
            EvDownload {| SourceURL := url; SourceChecksums := Checksums (Info f) |}].
    split; [|by repeat constructor].
    destruct (bool_decide _ || bool_decide _); simpl; by rewrite <- app_assoc.
  - exists [EvGetFileDownloadLocation f name ver]. simpl.
    split; [done|by repeat constructor].
Qed.

Lemma locateAndDownload_world ds manifest name ver w :
  ∃ evs, (locateAndDownload Networkdep ds manifest name ver w).2
         = MkWorld (cache w) (events w ++ evs)
         ∧ Forall isSelectionOrDownloadEvent evs.
Proof.
  unfold locateAndDownload, bind.
  pose proof (findFileFromManifest_world ds manifest w) as Hfind.
  destruct (findFileFromManifest ds manifest w) as [[[file|err]|] w1];
    simpl in Hfind; subst w1;
    try (exists [EvCollectData]; split; [done|by repeat constructor]).
  destruct (downloadFile_world (Some ds) (Some file) name ver
              (MkWorld (cache w) (events w ++ [EvCollectData]))) as (evs & Hw & Hevs).
  exists (EvCollectData :: evs).
  destruct (downloadFile _ _ _ _ _ _) as [r w2]. simpl in *. subst w2.
  rewrite <- app_assoc. split; [done|]. by constructor.
Qed.

Lemma DownloadManifest_flag ds name ver w r flag :
  (downloadManifest json_Decode (Some ds) name ver w).1 = Done (r, flag) →
  archive ds ≠ None →
  ∃ r', (DownloadManifest json_Decode ds name ver w).1 = Done (r', flag).
Proof.
  unfold DownloadManifest, bind.
  destruct (downloadManifest _ _ _ _ _) as [out w1]. simpl. intros -> Har.
  destruct r as [manifest|err]; [|by eexists].
  destruct (archive ds); [by eexists|done].
Qed.

(** *** Manifest store *)

(** C2. After a fetch and a parse that succeed, the flag returned is true
    exactly when the store held, under the parsed manifest's own resource
    identifier and version, bytes that parse to a manifest deeply equal to
    the fresh one; a failed read or parse of the stored bytes only makes the
    flag false, the operation then ending as the write decides. *)
Theorem isSameAsCache_iff_cached_equal ds ar name ver body parsed w :
  archive ds = Some ar →
  DownloadArchiveInfo ar name ver = Ok body →
  parseManifest json_Decode (list_byte_of_string body) = Ok parsed →
  let arn := GetResourceArn ar parsed in
  let cached := cachedManifest json_Decode (cache w) arn (Version parsed) in
  let written := WriteManifest (cache w) arn (Version parsed) (list_byte_of_string body) in
  ∃ r flag,
    (downloadManifest json_Decode (Some ds) name ver w).1 = Done (r, flag)
    ∧ (∃ r', (DownloadManifest json_Decode ds name ver w).1 = Done (r', flag))
    ∧ flag = DeepEqual (Some parsed) (manifestPtr cached)
    ∧ (flag = true ↔ cached = Ok parsed)
    ∧ (∀ err, cached = Err err →
         flag = false
         ∧ r = match written.2 with
               | Some werr => Err (CacheWriteError werr)
               | None => Ok parsed
               end).
Proof.
  intros Har Hfetch Hparse arn cached written.
  pose proof (downloadManifest_fresh ds ar name ver body parsed w Har Hfetch Hparse) as Hrun.
  cbv zeta in Hrun. fold arn in Hrun. fold cached in Hrun. fold written in Hrun.
  eexists _, _. split; [by rewrite Hrun|]. split.
  { eapply DownloadManifest_flag; [by rewrite Hrun|]. by rewrite Har. }
  split; [done|]. split.
  - rewrite DeepEqual_eq. destruct cached as [m|err]; simpl; split; congruence.
  - intros err ->. done.
Qed.

(** C6. After a fetch and a parse that succeed, the bytes fetched are
    written to the store under the resource identifier and the version of the
    parsed manifest, whatever the store held (also a manifest equal to the
    fresh one), and the operation fails, with the cache-write error, exactly
    when that write fails. *)
Theorem fresh_manifest_written ds ar name ver body parsed w :
  archive ds = Some ar →
  DownloadArchiveInfo ar name ver = Ok body →
  parseManifest json_Decode (list_byte_of_string body) = Ok parsed →
  let arn := GetResourceArn ar parsed in
  let data := list_byte_of_string body in
  let written := WriteManifest (cache w) arn (Version parsed) data in
  let run := downloadManifest json_Decode (Some ds) name ver w in
  cache run.2 = written.1
  ∧ events run.2
    = events w ++ [EvDownloadArchiveInfo name ver;
                   EvReadManifest arn (Version parsed);
                   EvWriteManifest arn (Version parsed) data]
  ∧ match written.2 with
    | Some err => ∃ flag, run.1 = Done (Err (CacheWriteError err), flag)
    | None => ∃ flag, run.1 = Done (Ok parsed, flag)
    end.
Proof.
  intros Har Hfetch Hparse arn data written run. subst run.
  rewrite (downloadManifest_fresh ds ar name ver body parsed w Har Hfetch Hparse).
  simpl. fold arn data. fold written. split; [done|]. split; [done|].
  destruct (written.2); by eexists.
Qed.

(** *** Artifact download *)

Lemma selection_not_fresh_download e :
  isSelectionOrDownloadEvent e → ¬ isFreshDownloadEvent e.
Proof. destruct e; simpl; tauto. Qed.

Lemma manifest_store_not_selection e :
  isManifestStoreEvent e → ¬ isSelectionOrDownloadEvent e.
Proof. destruct e; simpl; tauto. Qed.

Lemma DownloadArtifact_run ds name ver w :
  DownloadArtifact json_Decode Networkdep ds name ver w
  = let w1 := MkWorld (cache w) (events w ++ [EvReadManifest name ver]) in
    match cachedManifest json_Decode (cache w) name ver with
    | Ok manifest => locateAndDownload Networkdep ds manifest name ver w1
    | Err _ =>
        match downloadManifest json_Decode (Some ds) name ver w1 with
        | (Panic, w2) => (Panic, w2)
        | (Done (Err err, _), w2) =>
            (Done (Err ("failed to download the manifest: " +:+ err)), w2)
        | (Done (Ok manifest, _), w2) =>
            locateAndDownload Networkdep ds manifest name ver w2
        end
    end.
Proof.
  unfold DownloadArtifact, bind at 1. rewrite readManifestFromCache_run. cbv zeta.
  destruct (cachedManifest json_Decode (cache w) name ver) as [manifest|err0]; [done|].
  unfold bind.
  by destruct (downloadManifest _ _ _ _ _) as [[[[manifest|err] flag]|] w2].
Qed.

(** C7. The artifact download first reads the store under the pair the
    caller supplied and parses what it finds. When that succeeds it goes on
    to file selection with the cached manifest and makes no call that
    belongs to a fresh download. Only when the read or the parse fails does
    it run the fresh download, from the world the read left; and when that
    fails too it returns the failure without a call to the collector, the
    download location or the downloader. *)
Theorem DownloadArtifact_cache_first ds name ver w :
  let run := DownloadArtifact json_Decode Networkdep ds name ver w in
  let w1 := MkWorld (cache w) (events w ++ [EvReadManifest name ver]) in
  (∃ rest, events run.2 = events w ++ EvReadManifest name ver :: rest)
  ∧ (∀ manifest,
       cachedManifest json_Decode (cache w) name ver = Ok manifest →
       run = locateAndDownload Networkdep ds manifest name ver w1
       ∧ ∃ rest, events run.2 = events w1 ++ rest
                 ∧ Forall (λ e, ¬ isFreshDownloadEvent e) rest)
  ∧ (∀ err0 out w2,
       cachedManifest json_Decode (cache w) name ver = Err err0 →
       downloadManifest json_Decode (Some ds) name ver w1 = (out, w2) →
       match out with
       | Done (Ok manifest, _) =>
           run = locateAndDownload Networkdep ds manifest name ver w2
       | Done (Err err, _) =>
           run = (Done (Err ("failed to download the manifest: " +:+ err)), w2)
           ∧ ∃ evs, events run.2 = events w ++ evs
                    ∧ Forall (λ e, ¬ isSelectionOrDownloadEvent e) evs
       | Panic => run = (Panic, w2)
       end).
Proof.
  intros run w1. subst run. rewrite DownloadArtifact_run. fold w1. cbv zeta.
  assert (Hlocate : ∀ manifest w0,
             ∃ rest, events (locateAndDownload Networkdep ds manifest name ver w0).2
                     = events w0 ++ rest
                     ∧ Forall isSelectionOrDownloadEvent rest).
  { intros manifest w0.
    destruct (locateAndDownload_world ds manifest name ver w0) as (evs & -> & Hevs).
    by exists evs. }
  pose proof (downloadManifest_footprint ds name ver w1) as (evs & Hevs & Hstore).
  split; [|split].
  - destruct (cachedManifest json_Decode (cache w) name ver) as [manifest|err0].
    + destruct (Hlocate manifest w1) as (rest & -> & _).
      exists rest. simpl. by rewrite <- app_assoc.
    + destruct (downloadManifest _ _ _ _ _) as [[[[manifest|err] flag]|] w2];
        simpl in Hevs.
      * destruct (Hlocate manifest w2) as (rest & -> & _).
        exists (evs ++ rest). rewrite Hevs. simpl. by rewrite <- !app_assoc.
      * exists evs. simpl. rewrite Hevs. simpl. by rewrite <- app_assoc.
      * exists evs. simpl. rewrite Hevs. simpl. by rewrite <- app_assoc.
  - intros manifest ->. split; [done|].
    destruct (Hlocate manifest w1) as (rest & -> & Hrest).
    exists rest. split; [done|].
    eapply Forall_impl; [exact Hrest|]. apply selection_not_fresh_download.
  - intros err0 out w2 -> Hfresh. rewrite Hfresh in Hevs |- *. simpl in Hevs.
    destruct out as [[[manifest|err] flag]|]; [done| |done].
    split; [done|]. simpl.
    exists (EvReadManifest name ver :: evs). rewrite Hevs. simpl.
    rewrite <- app_assoc. split; [done|].
    constructor; [by intros []|].
    eapply Forall_impl; [exact Hstore|]. apply manifest_store_not_selection.
Qed.

(** C10. A fresh download inside the artifact download reads and writes
    the store under the resource identifier and the version of the manifest
    it fetched, while the first read was under the pair the caller supplied:
    when the two keys differ, in the name or in the version, a read of a
    key-value store under the supplied pair fails after the operation as it
    failed before. *)
Theorem fresh_download_leaves_requested_key
    `{!KeyValueCache C} ds ar name ver body parsed err0 w :
  cachedManifest json_Decode (cache w) name ver = Err err0 →
  archive ds = Some ar →
  DownloadArchiveInfo ar name ver = Ok body →
  parseManifest json_Decode (list_byte_of_string body) = Ok parsed →
  GetResourceArn ar parsed ≠ name ∨ Version parsed ≠ ver →
  let arn := GetResourceArn ar parsed in
  let data := list_byte_of_string body in
  let run := DownloadArtifact json_Decode Networkdep ds name ver w in
  (∃ rest, events run.2
           = events w ++ [EvReadManifest name ver;
                          EvDownloadArchiveInfo name ver;
                          EvReadManifest arn (Version parsed);
                          EvWriteManifest arn (Version parsed) data] ++ rest)
  ∧ cache run.2 = (WriteManifest (cache w) arn (Version parsed) data).1
  ∧ cachedManifest json_Decode (cache run.2) name ver = Err err0.
Proof.
  intros Hmiss Har Hfetch Hparse Hkey arn data run.
  assert (Hrun : (∃ rest, events run.2
                   = events w ++ [EvReadManifest name ver;
                                  EvDownloadArchiveInfo name ver;
                                  EvReadManifest arn (Version parsed);
                                  EvWriteManifest arn (Version parsed) data] ++ rest)
                 ∧ cache run.2 = (WriteManifest (cache w) arn (Version parsed) data).1).
  { subst run. rewrite DownloadArtifact_run, Hmiss. cbv zeta.
    rewrite (downloadManifest_fresh ds ar name ver body parsed _ Har Hfetch Hparse).
    cbv zeta. simpl cache. simpl events. fold arn data.
    destruct (WriteManifest (cache w) arn (Version parsed) data) as [c [werr|]]; simpl.
    - split; [|done]. exists []. by rewrite <- app_assoc.
    - destruct (locateAndDownload_world ds parsed name ver
                  (MkWorld c ((events w ++ [EvReadManifest name ver])
                              ++ [EvDownloadArchiveInfo name ver;
                                  EvReadManifest arn (Version parsed);
                                  EvWriteManifest arn (Version parsed) data])))
        as (evs & -> & _).
      simpl. split; [|done]. exists evs. by rewrite <- !app_assoc. }
  destruct Hrun as [Hevents Hcache]. split; [done|]. split; [done|].
  rewrite Hcache. unfold cachedManifest in *.
  rewrite read_write_other; [done|].
  intros [= Harn Hver]. by destruct Hkey.
Qed.

(** What a fresh download wrote is what a later artifact download finds. *)
Lemma fresh_manifest_then_cached `{!KeyValueCache C} ds ar name ver body parsed w :
  archive ds = Some ar →
  DownloadArchiveInfo ar name ver = Ok body →
  parseManifest json_Decode (list_byte_of_string body) = Ok parsed →
  let run := downloadManifest json_Decode (Some ds) name ver w in
  (∃ flag, run.1 = Done (Ok parsed, flag)) →
  cachedManifest json_Decode (cache run.2) (GetResourceArn ar parsed) (Version parsed)
  = Ok parsed.
Proof.
  intros Har Hfetch Hparse run. subst run.
  rewrite (downloadManifest_fresh ds ar name ver body parsed w Har Hfetch Hparse).
  simpl. intros [flag Hok]. unfold cachedManifest.
  rewrite read_write_same; [done|].
  by destruct (WriteManifest _ _ _ _).2.
Qed.

(** *** Artifact locator and downloader *)

Lemma scanFiles_found info (l : list (string * ptr FileInfo)) f :
  NoDup l.*1 → (FileName info, f) ∈ l →
  scanFiles (Some info) l = Done (f, FileName info).
Proof.
  induction l as [|[name f'] l IH]; simpl; intros Hnodup Hin.
  - by apply elem_of_nil in Hin.
  - apply NoDup_cons in Hnodup as [Hfresh Hnodup].
    apply elem_of_cons in Hin as [Heq|Hin].
    + injection Heq as <- <-. by rewrite decide_True.
    + rewrite decide_False; [by apply IH|].
      intros ->. apply Hfresh.
      by apply (list_elem_of_fmap_2 fst l (FileName info, f)).
Qed.

Lemma scanFiles_missing info (l : list (string * ptr FileInfo)) :
  FileName info ∉ l.*1 → scanFiles (Some info) l = Done (None, "").
Proof.
  induction l as [|[name f'] l IH]; simpl; intros Hmissing; [done|].
  apply not_elem_of_cons in Hmissing as [Hne Hmissing].
  rewrite decide_False; [by apply IH|done].
Qed.

(** The loop over the file table finds what indexing it would. *)
Lemma scanFiles_index info (files : gomap string (ptr FileInfo)) :
  scanFiles (Some info) (range files)
  = Done (match index files (FileName info) with
          | Some f => (f, FileName info)
          | None => (None, "")
          end).
Proof.
  destruct files as [entries|]; simpl; [|done].
  destruct (entries !! FileName info) as [f|] eqn:Hlookup.
  - apply scanFiles_found; [apply NoDup_fst_map_to_list|].
    by apply elem_of_map_to_list.
  - apply scanFiles_missing. intros Hin.
    apply list_elem_of_fmap in Hin as ([name f] & Hname & Hin). simpl in Hname. subst name.
    apply elem_of_map_to_list in Hin. congruence.
Qed.

Lemma findFileFromManifest_result ds manifest info w :
  (extractPackageInfo ds manifest w).1 = Ok (Some info) →
  (findFileFromManifest ds manifest w).1
  = Done (match index (Files manifest) (FileName info) with
          | Some (Some fileInfo) => Ok {| Name := FileName info; Info := fileInfo |}
          | _ => Err (FileNotFoundError (Some info))
          end).
Proof.
  unfold findFileFromManifest, bind.
  destruct (extractPackageInfo ds manifest w) as [r w1]. simpl. intros ->.
  rewrite scanFiles_index.
  by destruct (index (Files manifest) (FileName info)) as [[fileInfo|]|].
Qed.

Lemma index_withoutFile name manifest :
  index (Files (withoutFile name manifest)) name = None.
Proof.
  unfold withoutFile. simpl.
  destruct (Files manifest) as [entries|]; simpl; [|done]. apply lookup_delete_eq.
Qed.

Lemma extractPackageInfo_withoutFile ds name manifest w :
  extractPackageInfo ds (withoutFile name manifest) w = extractPackageInfo ds manifest w.
Proof. by rewrite !extractPackageInfo_run. Qed.

(** C5, amended. For every manifest and every variant that resolution
    yields, [findFileFromManifest] returns the file whose name is the
    variant's file name and whose info is the entry of the file table under
    that name whenever the table binds the name to a file info that is not
    null, and fails with the file-not-found error when the table has no
    entry under that name. *)
Theorem findFileFromManifest_locates ds manifest info w :
  (extractPackageInfo ds manifest w).1 = Ok (Some info) →
  (∀ fileInfo,
     index (Files manifest) (FileName info) = Some (Some fileInfo) →
     (findFileFromManifest ds manifest w).1
     = Done (Ok {| Name := FileName info; Info := fileInfo |}))
  ∧ (index (Files manifest) (FileName info) = None →
     (findFileFromManifest ds manifest w).1 = Done (Err (FileNotFoundError (Some info)))).
Proof.
  intros Hvariant. rewrite (findFileFromManifest_result _ _ _ _ Hvariant).
  split; [intros fileInfo ->|intros ->]; done.
Qed.

(** C9. When the file table binds the variant's file name to a null file
    info, [findFileFromManifest] fails with the file-not-found error, and
    does exactly what it does on the manifest without that entry; and a file
    it returns carries the file info, not null, that the table holds under
    the variant's file name. *)
Theorem findFileFromManifest_null_entry ds manifest info w :
  (extractPackageInfo ds manifest w).1 = Ok (Some info) →
  (index (Files manifest) (FileName info) = Some None →
     (findFileFromManifest ds manifest w).1 = Done (Err (FileNotFoundError (Some info)))
     ∧ findFileFromManifest ds (withoutFile (FileName info) manifest) w
       = findFileFromManifest ds manifest w)
  ∧ (∀ file,
       (findFileFromManifest ds manifest w).1 = Done (Ok file) →
       Name file = FileName info
       ∧ index (Files manifest) (Name file) = Some (Some (Info file))).
Proof.
  intros Hvariant.
  pose proof (findFileFromManifest_result _ _ _ _ Hvariant) as Hfind.
  split.
  - intros Hnull. rewrite Hnull in Hfind. split; [done|].
    apply injective_projections.
    + rewrite Hfind.
      rewrite (findFileFromManifest_result _ _ info); [|by rewrite extractPackageInfo_withoutFile].
      by rewrite index_withoutFile.
    + by rewrite !findFileFromManifest_world.
  - intros file Hfile. rewrite Hfile in Hfind.
    destruct (index (Files manifest) (FileName info)) as [[fileInfo|]|] eqn:Hindex;
      try discriminate Hfind.
    by injection Hfind as ->.
Qed.

Lemma DownloadError_contains_url url downloadErr :
  Contains url (DownloadError url downloadErr).
Proof.
  unfold DownloadError. destruct downloadErr as [err|].
  - exists "failed to download installation package reliably, ", (", " +:+ err).
    by rewrite string_app_assoc.
  - exists "failed to download installation package reliably, ", "".
    by rewrite string_app_nil_r.
Qed.

Lemma DownloadError_contains_cause url err :
  Contains err (DownloadError url (Some err)).
Proof.
  exists ("failed to download installation package reliably, " +:+ url +:+ ", "), "".
  unfold DownloadError. by rewrite string_app_nil_r, !string_app_assoc.
Qed.

(** C8. Once the archive has given a download location for the file,
    [downloadFile] calls the downloader with it and fails, with the download
    error, exactly when the downloader reports an error or returns an empty
    local path; the message then contains the source URL and, when the
    downloader reported an error, its text; otherwise the downloader's local
    path is returned. When the archive gives no location its error is
    returned and the downloader is not called. *)
Theorem downloadFile_DownloadError ds ar file name ver w :
  archive ds = Some ar →
  let run := downloadFile Networkdep (Some ds) (Some file) name ver w in
  match GetFileDownloadLocation ar file name ver with
  | Err err =>
      run.1 = Err err
      ∧ events run.2 = events w ++ [EvGetFileDownloadLocation file name ver]
  | Ok url =>
      let input := {| SourceURL := url; SourceChecksums := Checksums (Info file) |} in
      let output := (Download Networkdep input).1 in
      let downloadErr := (Download Networkdep input).2 in
      events run.2 = events w ++ [EvGetFileDownloadLocation file name ver; EvDownload input]
      ∧ (downloadErr ≠ None ∨ LocalFilePath output = "" →
         run.1 = Err (DownloadError url downloadErr)
         ∧ Contains url (DownloadError url downloadErr)
         ∧ ∀ err, downloadErr = Some err → Contains err (DownloadError url downloadErr))
      ∧ (¬ (downloadErr ≠ None ∨ LocalFilePath output = "") →
         run.1 = Ok (LocalFilePath output))
  end.
Proof.
  intros Har run. subst run. unfold downloadFile. rewrite Har.
  unfold getFileDownloadLocation, download, bind, emit, ret. simpl.
  destruct (GetFileDownloadLocation ar file name ver) as [url|err]; [|done].
  cbv zeta.
  set (input := {| SourceURL := url; SourceChecksums := Checksums (Info file) |}).
  destruct (bool_decide (_ ≠ None) || bool_decide (_ = "")) eqn:Hfail; simpl.
  - rewrite <- app_assoc. split; [done|]. split.
    + intros _. split; [done|]. split; [apply DownloadError_contains_url|].
      intros err ->. apply DownloadError_contains_cause.
    + intros Hok. exfalso. apply Hok.
      apply orb_true_iff in Hfail as [Herr|Hpath].
      * left. by apply bool_decide_eq_true in Herr.
      * right. by apply bool_decide_eq_true in Hpath.
  - rewrite <- app_assoc. split; [done|]. split; [|done].
    apply orb_false_iff in Hfail as [Herr Hpath].
    apply bool_decide_eq_false in Herr, Hpath. tauto.
Qed.

(** *** Result reporter *)

Lemma ReportResult_run ds result w :
  ReportResult loopvar_per_iteration ds result w
  = let input :=
      reportInput loopvar_per_iteration result (CollectData (collector ds)).1
        (NowUnixNano (timeProvider ds)) in
    (match PutConfigurePackageResult (facadeClient ds) input with
     | Some err => Some ("failed to report results: " +:+ err)
     | None => None
     end,
     MkWorld (cache w)
       (events w ++ [EvCollectData; EvNowUnixNano; EvPutConfigurePackageResult input])).
Proof.
  unfold ReportResult, collectData, nowUnixNano, putConfigurePackageResult,
    bind, emit, ret. simpl. rewrite <- !app_assoc. simpl.
  by destruct (PutConfigurePackageResult _ _).
Qed.

Lemma wrap64_is_int64 z : is_int64 (wrap64 z).
Proof.
  unfold is_int64, wrap64.
  pose proof (Z.mod_pos_bound (z + 2 ^ 63) (2 ^ 64) eq_refl). lia.
Qed.

Lemma wrap64_id z : is_int64 z → wrap64 z = z.
Proof. unfold is_int64, wrap64. intros Hz. rewrite Z.mod_small; lia. Qed.

Lemma quot_million_is_int64 z : is_int64 z → is_int64 (Z.quot z 1000000).
Proof.
  unfold is_int64. intros Hz.
  pose proof (Z.quot_rem' z 1000000) as Hqr.
  destruct (Z.lt_ge_cases z 0) as [Hneg|Hpos].
  - pose proof (Z.rem_bound_pos_neg z 1000000 eq_refl (Z.lt_le_incl _ _ Hneg)). lia.
  - pose proof (Z.rem_bound_pos z 1000000 Hpos eq_refl). lia.
Qed.

Lemma elapsedMillis_quot T S :
  elapsedMillis T S = Z.quot (wrap64 (T - S)) 1000000.
Proof.
  unfold elapsedMillis, int64_div, int64_sub.
  apply wrap64_id, quot_million_is_int64, wrap64_is_int64.
Qed.

(** C4, amended. Every step with raw timestamp [T] is reported, at its
    place in the sequence, with the elapsed time [(T - S) / 1000000] of
    [int64] arithmetic, [S] being the start timestamp: the difference wraps
    around on overflow and the division truncates toward zero. So the value
    is the quotient of [T - S] whenever that fits in an [int64], zero when
    [T = S], and, when [T < S], at most zero and negative exactly when [T]
    is a millisecond or more before [S]. The overall timing is the same
    function of the clock's reading and [S]. *)
Theorem ReportResult_elapsed_millis ds result w :
  let S := ResultTiming result in
  let now := NowUnixNano (timeProvider ds) in
  let input := reportInput loopvar_per_iteration result (CollectData (collector ds)).1 now in
  (ReportResult loopvar_per_iteration ds result w).2
  = MkWorld (cache w)
      (events w ++ [EvCollectData; EvNowUnixNano; EvPutConfigurePackageResult input])
  ∧ List.map StepTiming (Steps input)
    = List.map (λ t, elapsedMillis (Timing t) S) (ResultTrace result)
  ∧ OverallTiming input = elapsedMillis now S
  ∧ ∀ T,
      elapsedMillis T S = Z.quot (wrap64 (T - S)) 1000000
      ∧ (T = S → elapsedMillis T S = 0)
      ∧ (is_int64 (T - S) →
         elapsedMillis T S = Z.quot (T - S) 1000000
         ∧ (T < S → elapsedMillis T S <= 0 ∧ (elapsedMillis T S < 0 ↔ 1000000 <= S - T))).
Proof.
  intros S now input. split; [by rewrite ReportResult_run|].
  split; [|split; [done|]].
  - subst input. unfold reportInput, reportSteps. simpl.
    rewrite List.map_map. done.
  - intros T. rewrite elapsedMillis_quot. split; [done|]. split.
    + intros ->. by rewrite Z.sub_diag.
    + intros Hfits. rewrite (wrap64_id _ Hfits). split; [done|]. intros Hlt.
      pose proof (Z.quot_rem' (T - S) 1000000) as Hqr.
      assert (Hneg : T - S < 0) by lia.
      pose proof (Z.rem_bound_pos_neg (T - S) 1000000 eq_refl (Z.lt_le_incl _ _ Hneg)). lia.
Qed.
End ServiceProperties.

(** ** The properties on concrete runs *)

Lemma isSameAsCache_iff_cached_equal_witness :
  ∃ r, (downloadManifest stubDecode (Some (stubService linuxHost None)) "pkg" "latest"
          (startWorld warmCache)).1 = Done (r, true).
Proof.
  destruct (isSameAsCache_iff_cached_equal stubDecode (stubService linuxHost None)
              stubArchive "pkg" "latest" "linux-manifest" linuxManifest
              (startWorld warmCache) eq_refl eq_refl eq_refl)
    as (r & flag & Hrun & _ & _ & Hflag & _).
  exists r. rewrite Hrun. do 2 f_equal. apply Hflag. reflexivity.
Defined.

Lemma fresh_manifest_written_witness :
  let run := downloadManifest stubDecode (Some (stubService linuxHost None)) "pkg" "latest"
               (startWorld warmCache) in
  cache run.2 = warmCache
  ∧ events run.2
    = [EvDownloadArchiveInfo "pkg" "latest";
       EvReadManifest "arn:aws:ssm:::package/pkg" "1.0.0";
       EvWriteManifest "arn:aws:ssm:::package/pkg" "1.0.0"
         (list_byte_of_string "linux-manifest")]
  ∧ ∃ flag, run.1 = Done (Ok linuxManifest, flag).
Proof.
  destruct (fresh_manifest_written stubDecode (stubService linuxHost None)
              stubArchive "pkg" "latest" "linux-manifest" linuxManifest
              (startWorld warmCache) eq_refl eq_refl eq_refl)
    as (Hcache & Hevents & Hresult).
  split; [|split].
  - rewrite Hcache. by vm_compute.
  - exact Hevents.
  - exact Hresult.
Defined.

Lemma DownloadArtifact_cache_first_witness :
  DownloadArtifact stubDecode stubNetwork (stubService linuxHost None) "missing" "latest"
    (startWorld emptyCache)
  = (Done (Err "failed to download the manifest: failed to download manifest - package not found"),
     MkWorld emptyCache
       [EvReadManifest "missing" "latest"; EvDownloadArchiveInfo "missing" "latest"]).
Proof.
  refine (proj1 (proj2 (proj2 (DownloadArtifact_cache_first stubDecode stubNetwork
                                 (stubService linuxHost None) "missing" "latest"
                                 (startWorld emptyCache)))
                   "manifest not found"
                   (Done (Err "failed to download manifest - package not found", false))
                   (MkWorld emptyCache
                      [EvReadManifest "missing" "latest";
                       EvDownloadArchiveInfo "missing" "latest"])
                   eq_refl eq_refl)).
Defined.

Lemma fresh_download_leaves_requested_key_witness :
  cachedManifest stubDecode
    (cache (DownloadArtifact stubDecode stubNetwork (stubService linuxHost None)
              "pkg" "latest" (startWorld emptyCache)).2)
    "pkg" "latest"
  = Err "manifest not found".
Proof.
  refine (proj2 (proj2 (fresh_download_leaves_requested_key stubDecode stubNetwork
                          (stubService linuxHost None) stubArchive "pkg" "latest"
                          "linux-manifest" linuxManifest "manifest not found"
                          (startWorld emptyCache) eq_refl eq_refl eq_refl eq_refl _))).
  left. discriminate.
Defined.

(** A file table that has the variant's file name as a key, and no file
    located. *)
Lemma findFileFromManifest_null_counterexample :
  (extractPackageInfo (stubService linuxHost None) nullFileManifest
     (startWorld emptyCache)).1 = Ok (Some pkgZip)
  ∧ index (Files nullFileManifest) (FileName pkgZip) = Some None
  ∧ (findFileFromManifest (stubService linuxHost None) nullFileManifest
       (startWorld emptyCache)).1
    = Done (Err "failed to find file for &{FileName:pkg.zip}").
Proof. by vm_compute. Qed.

Lemma findFileFromManifest_locates_witness :
  (findFileFromManifest (stubService linuxHost None) linuxManifest
     (startWorld emptyCache)).1
  = Done (Ok {| Name := "pkg.zip"; Info := pkgZipInfo |}).
Proof.
  refine (proj1 (findFileFromManifest_locates (stubService linuxHost None) linuxManifest
                   pkgZip (startWorld emptyCache) _) pkgZipInfo _);
    by vm_compute.
Defined.

Lemma findFileFromManifest_null_entry_witness :
  (findFileFromManifest (stubService linuxHost None) nullFileManifest
     (startWorld emptyCache)).1
  = Done (Err (FileNotFoundError (Some pkgZip))).
Proof.
  refine (proj1 (proj1 (findFileFromManifest_null_entry (stubService linuxHost None)
                          nullFileManifest pkgZip (startWorld emptyCache) _) _));
    by vm_compute.
Defined.

Lemma downloadFile_DownloadError_witness :
  (downloadFile stubNetwork (Some (stubService linuxHost None))
     (Some {| Name := "pkg.zip"; Info := pkgZipInfo |}) "unreachable" "1.0.0"
     (startWorld emptyCache)).1
  = Err "failed to download installation package reliably, https://unreachable/pkg.zip, connection refused".
Proof.
  refine (proj1 (proj1 (proj2 (downloadFile_DownloadError stubNetwork
                                 (stubService linuxHost None) stubArchive
                                 {| Name := "pkg.zip"; Info := pkgZipInfo |}
                                 "unreachable" "1.0.0" (startWorld emptyCache) eq_refl)) _)).
  left. discriminate.
Defined.

(** A step stamped before the start, yet not reported with a negative
    elapsed time: the division truncates toward zero. *)
Lemma elapsed_millis_negative_counterexample :
  ∃ t step,
    ResultTrace earlyStepResult = [t]
    ∧ Steps (reportInput true earlyStepResult linuxHost 1005000000) = [step]
    ∧ Timing t < ResultTiming earlyStepResult
    ∧ ¬ (StepTiming step < 0).
Proof.
  exists {| Operation := "install"; Exitcode := 0; Timing := 0 |},
         {| Action := "install"; StepResult := 0; StepTiming := 0 |}.
  split; [reflexivity|]. split; [by vm_compute|]. split; [reflexivity|]. simpl. lia.
Qed.

Lemma ReportResult_elapsed_millis_witness :
  List.map StepTiming
    (Steps (reportInput true oneStepResult linuxHost 1005000000)) = [2]
  ∧ OverallTiming (reportInput true oneStepResult linuxHost 1005000000) = 5
  ∧ elapsedMillis 0 1000000000 < 0.
Proof.
  destruct (ReportResult_elapsed_millis true (stubService linuxHost None) oneStepResult
              (startWorld emptyCache)) as (_ & Hsteps & Hoverall & Hquot).
  split; [exact Hsteps|]. split; [exact Hoverall|].
  destruct (Hquot 0) as (_ & _ & Hfits).
  apply Hfits; [unfold is_int64|..]; simpl; lia.
Defined.

(** ** The scenarios of the specification, and a few more *)

Example scenario_windows_host :
  (extractPackageInfo (stubService windowsHost None) linuxManifest
     (startWorld emptyCache)).1
  = Err "no manifest found for platform: windows, version 5.0, architecture x86_64".
Proof. reflexivity. Qed.

Example scenario_artifact_from_empty_store :
  DownloadArtifact stubDecode stubNetwork (stubService linuxHost None) "pkg" "latest"
    (startWorld emptyCache)
  = (Done (Ok "/var/lib/pkg.zip"),
     MkWorld warmCache
       [EvReadManifest "pkg" "latest";
        EvDownloadArchiveInfo "pkg" "latest";
        EvReadManifest "arn:aws:ssm:::package/pkg" "1.0.0";
        EvWriteManifest "arn:aws:ssm:::package/pkg" "1.0.0"
          (list_byte_of_string "linux-manifest");
        EvCollectData;
        EvGetFileDownloadLocation {| Name := "pkg.zip"; Info := pkgZipInfo |} "pkg" "latest";
        EvDownload {| SourceURL := "https://pkg/pkg.zip";
                      SourceChecksums := Some {[ "sha256" := "abc" ]} |}]).
Proof. by vm_compute. Qed.

Example scenario_readonly_store :
  (downloadManifest stubDecode (Some (stubService linuxHost None)) "pkg" "latest"
     (startWorld readonlyCache)).1
  = Done (Err "failed to write manifest to file: read-only file system", false).
Proof. by vm_compute. Qed.

Example scenario_undecodable_manifest :
  downloadManifest stubDecode (Some (stubService linuxHost None)) "broken" "latest"
    (startWorld emptyCache)
  = (Done (Err "failed to decode manifest: invalid character", false),
     MkWorld emptyCache [EvDownloadArchiveInfo "broken" "latest"]).
Proof. by vm_compute. Qed.

(** A variant that is [null] in the selector tree: the comparison of the
    first file name dereferences it. *)
Example scenario_null_variant :
  (findFileFromManifest (stubService linuxHost None)
     {| Version := "1.0.0";
        Packages := Some {[ "_any" := Some {[ "_any" := Some {[ "_any" := None ]} ]} ]};
        Files := Files linuxManifest |}
     (startWorld emptyCache)).1
  = Panic.
Proof. by vm_compute. Qed.

(** With one loop variable for the whole loop, over a trace of struct
    values, every step carries the action and the result of the last one; the
    timings are those of each step. *)
Example scenario_shared_loop_variable :
  Steps (reportInput false twoStepResult linuxHost 1005000000)
  = [ {| Action := "install"; StepResult := 1; StepTiming := 1 |};
      {| Action := "install"; StepResult := 1; StepTiming := 3 |} ].
Proof. reflexivity. Qed.

Example scenario_loop_variable_per_iteration :
  Steps (reportInput true twoStepResult linuxHost 1005000000)
  = [ {| Action := "download"; StepResult := 0; StepTiming := 1 |};
      {| Action := "install"; StepResult := 1; StepTiming := 3 |} ].
Proof. reflexivity. Qed.

Example scenario_overflow :
  elapsedMillis (2 ^ 63 - 1) (-1) = -9223372036854.
Proof. reflexivity. Qed.

(** ** Further behaviour of the service *)

Section ServiceBehaviour.
Context {C : Type} `{ManifestCache C}.
Variable json_Decode : bytes → result Manifest.
Variable Networkdep : NetworkDep.
Variable loopvar_per_iteration : bool.

Implicit Types (w : World C) (ds : PackageService) (ar : IPackageArchive).
Implicit Types (manifest parsed : Manifest) (name ver body : string).

(** *** Manifest store *)

(** X1. When the archive cannot deliver the document, or the document does
    not decode, [downloadManifest] returns the error with the flag false
    after the one call to the archive: the store is neither read nor
    written. *)
Theorem downloadManifest_early_failure ds ar name ver w :
  archive ds = Some ar →
  let run := downloadManifest json_Decode (Some ds) name ver w in
  let w1 := MkWorld (cache w) (events w ++ [EvDownloadArchiveInfo name ver]) in
  match DownloadArchiveInfo ar name ver with
  | Err err => run = (Done (Err ("failed to download manifest - " +:+ err), false), w1)
  | Ok body =>
      ∀ err, json_Decode (list_byte_of_string body) = Err err →
             run = (Done (Err ("failed to decode manifest: " +:+ err), false), w1)
  end.
Proof.
  intros Har run w1. subst run w1.
  unfold downloadManifest, downloadArchiveInfo, bind, emit, ret. rewrite Har. simpl.
  destruct (DownloadArchiveInfo ar name ver) as [body|err]; [|done].
  intros err Hdecode. unfold parseManifest. by rewrite Hdecode.
Qed.

Lemma DownloadManifest_fresh ds ar name ver body parsed w :
  archive ds = Some ar →
  DownloadArchiveInfo ar name ver = Ok body →
  parseManifest json_Decode (list_byte_of_string body) = Ok parsed →
  let arn := GetResourceArn ar parsed in
  let data := list_byte_of_string body in
  let written := WriteManifest (cache w) arn (Version parsed) data in
  DownloadManifest json_Decode ds name ver w
  = (Done (match written.2 with
           | Some err => Err (CacheWriteError err)
           | None => Ok (arn, Version parsed)
           end,
           DeepEqual (Some parsed)
             (manifestPtr (cachedManifest json_Decode (cache w) arn (Version parsed)))),
     MkWorld written.1
       (events w ++ [EvDownloadArchiveInfo name ver;
                     EvReadManifest arn (Version parsed);
                     EvWriteManifest arn (Version parsed) data])).
Proof.
  intros Har Hfetch Hparse arn data written.
  unfold DownloadManifest, bind.
  rewrite (downloadManifest_fresh json_Decode ds ar name ver body parsed w Har Hfetch Hparse).
  cbv zeta. fold arn data. fold written. rewrite Har.
  by destruct (written.2).
Qed.

(** X2. [DownloadManifest] answers with the resource identifier and the
    version of the manifest it fetched, whatever name and version were asked
    for, once the manifest is stored. *)
Theorem DownloadManifest_own_identity ds ar name ver body parsed w :
  archive ds = Some ar →
  DownloadArchiveInfo ar name ver = Ok body →
  parseManifest json_Decode (list_byte_of_string body) = Ok parsed →
  (WriteManifest (cache w) (GetResourceArn ar parsed) (Version parsed)
     (list_byte_of_string body)).2 = None →
  ∃ flag, (DownloadManifest json_Decode ds name ver w).1
          = Done (Ok (GetResourceArn ar parsed, Version parsed), flag).
Proof.
  intros Har Hfetch Hparse Hwrite.
  rewrite (DownloadManifest_fresh ds ar name ver body parsed w Har Hfetch Hparse).
  cbv zeta. rewrite Hwrite. by eexists.
Qed.

(** X3. On a key-value store, a [DownloadManifest] that follows one that
    stored the same document reports the manifest as unchanged. *)
Theorem DownloadManifest_twice_unchanged
    `{!KeyValueCache C} ds ar name ver body parsed w :
  archive ds = Some ar →
  DownloadArchiveInfo ar name ver = Ok body →
  parseManifest json_Decode (list_byte_of_string body) = Ok parsed →
  (WriteManifest (cache w) (GetResourceArn ar parsed) (Version parsed)
     (list_byte_of_string body)).2 = None →
  let w1 := (DownloadManifest json_Decode ds name ver w).2 in
  ∃ r, (DownloadManifest json_Decode ds name ver w1).1 = Done (r, true).
Proof.
  intros Har Hfetch Hparse Hwrite w1.
  assert (Hcached : cachedManifest json_Decode (cache w1) (GetResourceArn ar parsed)
                      (Version parsed) = Ok parsed).
  { subst w1.
    rewrite (DownloadManifest_fresh ds ar name ver body parsed w Har Hfetch Hparse).
    cbv zeta. simpl. unfold cachedManifest.
    by rewrite read_write_same, Hparse. }
  rewrite (DownloadManifest_fresh ds ar name ver body parsed w1 Har Hfetch Hparse).
  cbv zeta. rewrite Hcached. eexists. unfold fst. do 2 f_equal.
  by apply DeepEqual_eq.
Qed.

(** X4. On a key-value store, after a [DownloadManifest] that stored the
    manifest, a [DownloadArtifact] for the identifier and the version it
    answered finds the manifest in the store: it goes on to file selection
    with that manifest, calls neither the archive for a manifest nor the
    store for a write, and leaves the store as it was. *)
Theorem DownloadArtifact_after_DownloadManifest
    `{!KeyValueCache C} ds ar name ver body parsed w :
  archive ds = Some ar →
  DownloadArchiveInfo ar name ver = Ok body →
  parseManifest json_Decode (list_byte_of_string body) = Ok parsed →
  (WriteManifest (cache w) (GetResourceArn ar parsed) (Version parsed)
     (list_byte_of_string body)).2 = None →
  let arn := GetResourceArn ar parsed in
  let w1 := (DownloadManifest json_Decode ds name ver w).2 in
  let w2 := MkWorld (cache w1) (events w1 ++ [EvReadManifest arn (Version parsed)]) in
  let run := DownloadArtifact json_Decode Networkdep ds arn (Version parsed) w1 in
  run = locateAndDownload Networkdep ds parsed arn (Version parsed) w2
  ∧ cache run.2 = cache w1
  ∧ ∃ rest, events run.2 = events w2 ++ rest
            ∧ Forall (λ e, ¬ isFreshDownloadEvent e) rest.
Proof.
  intros Har Hfetch Hparse Hwrite arn w1 w2 run.
  assert (Hcached : cachedManifest json_Decode (cache w1) arn (Version parsed) = Ok parsed).
  { subst w1.
    rewrite (DownloadManifest_fresh ds ar name ver body parsed w Har Hfetch Hparse).
    cbv zeta. simpl. unfold cachedManifest.
    by rewrite read_write_same, Hparse. }
  assert (Hrun : run = locateAndDownload Networkdep ds parsed arn (Version parsed) w2).
  { subst run. rewrite DownloadArtifact_run. cbv zeta. by rewrite Hcached. }
  split; [done|]. rewrite Hrun.
  destruct (locateAndDownload_world Networkdep ds parsed arn (Version parsed) w2)
    as (rest & -> & Hrest).
  split; [done|]. exists rest. split; [done|].
  eapply Forall_impl; [exact Hrest|]. intros e. destruct e; simpl; tauto.
Qed.

Lemma downloadManifest_cache ds name ver w :
  let run := downloadManifest json_Decode (Some ds) name ver w in
  cache run.2 = cache w
  ∨ ∃ ar body parsed,
      archive ds = Some ar
      ∧ DownloadArchiveInfo ar name ver = Ok body
      ∧ parseManifest json_Decode (list_byte_of_string body) = Ok parsed
      ∧ cache run.2
        = (WriteManifest (cache w) (GetResourceArn ar parsed) (Version parsed)
             (list_byte_of_string body)).1.
Proof.
  intros run. subst run.
  destruct (archive ds) as [ar|] eqn:Har.
  2:{ left. unfold downloadManifest. by rewrite Har. }
  destruct (DownloadArchiveInfo ar name ver) as [body|err] eqn:Hfetch.
  2:{ left. unfold downloadManifest, downloadArchiveInfo, bind, emit, ret.
      rewrite Har. simpl. by rewrite Hfetch. }
  destruct (parseManifest json_Decode (list_byte_of_string body)) as [parsed|err] eqn:Hparse.
  2:{ left. unfold downloadManifest, downloadArchiveInfo, bind, emit, ret.
      rewrite Har. simpl. by rewrite Hfetch, Hparse. }
  right. exists ar, body, parsed.
  by rewrite (downloadManifest_fresh json_Decode ds ar name ver body parsed w Har Hfetch Hparse).
Qed.

(** *** Artifact download *)

(** X5. [DownloadArtifact] leaves the store as it found it when the
    manifest is in the store, and in every case changes it by at most the
    one write of a manifest it fetched and parsed, under that manifest's
    own key. *)
Theorem DownloadArtifact_store ds name ver w :
  let run := DownloadArtifact json_Decode Networkdep ds name ver w in
  (∀ manifest,
     cachedManifest json_Decode (cache w) name ver = Ok manifest → cache run.2 = cache w)
  ∧ (cache run.2 = cache w
     ∨ ∃ ar body parsed,
         archive ds = Some ar
         ∧ DownloadArchiveInfo ar name ver = Ok body
         ∧ parseManifest json_Decode (list_byte_of_string body) = Ok parsed
         ∧ cache run.2
           = (WriteManifest (cache w) (GetResourceArn ar parsed) (Version parsed)
                (list_byte_of_string body)).1).
Proof.
  intros run. subst run. rewrite DownloadArtifact_run. cbv zeta.
  set (w1 := MkWorld (cache w) (events w ++ [EvReadManifest name ver])).
  destruct (cachedManifest json_Decode (cache w) name ver) as [manifest|err0].
  - destruct (locateAndDownload_world Networkdep ds manifest name ver w1) as (evs & -> & _).
    split; [done|by left].
  - split; [done|].
    pose proof (downloadManifest_cache ds name ver w1) as Hcache. cbv zeta in Hcache.
    destruct (downloadManifest json_Decode (Some ds) name ver w1)
      as [[[[manifest|err] flag]|] w2]; simpl in Hcache; try exact Hcache.
    destruct (locateAndDownload_world Networkdep ds manifest name ver w2) as (evs & -> & _).
    exact Hcache.
Qed.

Lemma downloadFile_ok (dso : option PackageService) (file : ptr File) name ver w path :
  (downloadFile Networkdep dso file name ver w).1 = Ok path →
  path ≠ ""
  ∧ ∃ input before,
      Download Networkdep input = ({| LocalFilePath := path |}, None)
      ∧ events (downloadFile Networkdep dso file name ver w).2 = before ++ [EvDownload input].
Proof.
  unfold downloadFile.
  destruct dso as [ds|], file as [f|]; try discriminate.
  destruct (archive ds) as [ar|]; [|discriminate].
  unfold getFileDownloadLocation, download, bind, emit, ret. simpl.
  destruct (GetFileDownloadLocation ar f name ver) as [url|err]; [|discriminate].
  set (input := {| SourceURL := url; SourceChecksums := Checksums (Info f) |}).
  destruct (Download Networkdep input) as [[local] derr] eqn:Hdownload. simpl.
  destruct (bool_decide (derr ≠ None) || bool_decide (local = "")) eqn:Hfail;
    simpl; [discriminate|].
  apply orb_false_iff in Hfail as [Herr Hpath].
  apply bool_decide_eq_false in Herr, Hpath.
  intros [= <-]. split; [done|].
  exists input, (events w ++ [EvGetFileDownloadLocation f name ver]).
  split; [|done]. rewrite Hdownload.
  destruct derr; [|done]. by destruct Herr.
Qed.

Lemma locateAndDownload_ok ds manifest name ver w path :
  (locateAndDownload Networkdep ds manifest name ver w).1 = Done (Ok path) →
  path ≠ ""
  ∧ ∃ input before,
      Download Networkdep input = ({| LocalFilePath := path |}, None)
      ∧ events (locateAndDownload Networkdep ds manifest name ver w).2
        = before ++ [EvDownload input].
Proof.
  unfold locateAndDownload, bind.
  destruct (findFileFromManifest ds manifest w) as [[[file|err]|] w1]; try discriminate.
  pose proof (downloadFile_ok (Some ds) (Some file) name ver w1 path) as Hok.
  destruct (downloadFile Networkdep (Some ds) (Some file) name ver w1) as [r w2].
  simpl in *. intros [= ->]. by apply Hok.
Qed.

(** X6. A path that [DownloadArtifact] returns is never empty: it is the
    local path the downloader returned, without an error, at the last call
    the operation made. *)
Theorem DownloadArtifact_ok ds name ver w path :
  let run := DownloadArtifact json_Decode Networkdep ds name ver w in
  run.1 = Done (Ok path) →
  path ≠ ""
  ∧ ∃ input before,
      Download Networkdep input = ({| LocalFilePath := path |}, None)
      ∧ events run.2 = before ++ [EvDownload input].
Proof.
  intros run. subst run. rewrite DownloadArtifact_run. cbv zeta.
  destruct (cachedManifest json_Decode (cache w) name ver) as [manifest|err0].
  - apply locateAndDownload_ok.
  - destruct (downloadManifest json_Decode (Some ds) name ver _)
      as [[[[manifest|err] flag]|] w2]; try discriminate.
    apply locateAndDownload_ok.
Qed.

Lemma locateAndDownload_collector_failure ds manifest name ver env err w :
  CollectData (collector ds) = (env, Some err) →
  locateAndDownload Networkdep ds manifest name ver w
  = (Done (Err ("failed to find platform: failed to collect data: " +:+ err)),
     MkWorld (cache w) (events w ++ [EvCollectData])).
Proof.
  intros Hcollect. unfold locateAndDownload, findFileFromManifest, bind.
  rewrite extractPackageInfo_run, Hcollect. done.
Qed.

(** X7. When the environment collector fails, [DownloadArtifact] returns
    no path and calls neither the archive for a download location nor the
    downloader; with the manifest in the store it returns the collector's
    error, wrapped twice, after the read of the store and the call to the
    collector. *)
Theorem DownloadArtifact_collector_failure ds name ver env err w :
  CollectData (collector ds) = (env, Some err) →
  let run := DownloadArtifact json_Decode Networkdep ds name ver w in
  (∀ path, run.1 ≠ Done (Ok path))
  ∧ (∀ manifest,
       cachedManifest json_Decode (cache w) name ver = Ok manifest →
       run = (Done (Err ("failed to find platform: failed to collect data: " +:+ err)),
              MkWorld (cache w) (events w ++ [EvReadManifest name ver; EvCollectData])))
  ∧ ∃ evs, events run.2 = events w ++ evs
           ∧ Forall (λ e, isManifestStoreEvent e ∨ e = EvCollectData) evs.
Proof.
  intros Hcollect run. subst run. rewrite DownloadArtifact_run. cbv zeta.
  set (w1 := MkWorld (cache w) (events w ++ [EvReadManifest name ver])).
  pose proof (downloadManifest_footprint json_Decode ds name ver w1)
    as (evs & Hevs & Hstore).
  assert (Hweaken : Forall (λ e, isManifestStoreEvent e ∨ e = EvCollectData) evs).
  { eapply Forall_impl; [exact Hstore|]. by left. }
  destruct (cachedManifest json_Decode (cache w) name ver) as [manifest|err0].
  - rewrite (locateAndDownload_collector_failure _ _ _ _ _ _ _ Hcollect).
    split; [done|]. split.
    + intros ? [= <-]. subst w1. simpl. by rewrite <- app_assoc.
    + exists [EvReadManifest name ver; EvCollectData]. subst w1. simpl.
      rewrite <- app_assoc. split; [done|].
      constructor; [by left|]. constructor; [by right|]. constructor.
  - destruct (downloadManifest json_Decode (Some ds) name ver w1)
      as [[[[manifest|err1] flag]|] w2]; simpl in Hevs.
    + rewrite (locateAndDownload_collector_failure _ _ _ _ _ _ _ Hcollect).
      split; [done|]. split; [done|].
      exists (EvReadManifest name ver :: evs ++ [EvCollectData]). simpl.
      rewrite Hevs. subst w1. simpl. rewrite <- !app_assoc. split; [done|].
      constructor; [by left|]. apply Forall_app. split; [done|].
      constructor; [by right|]. constructor.
    + split; [done|]. split; [done|].
      exists (EvReadManifest name ver :: evs). simpl. rewrite Hevs. subst w1. simpl.
      rewrite <- app_assoc. split; [done|]. constructor; [by left|done].
    + split; [done|]. split; [done|].
      exists (EvReadManifest name ver :: evs). simpl. rewrite Hevs. subst w1. simpl.
      rewrite <- app_assoc. split; [done|]. constructor; [by left|done].
Qed.

(** X8. Without a service [downloadManifest] returns an error and calls
    nothing; with a service whose archive handle is nil it panics at its
    first step, the call to the archive, before any collaborator is
    reached. *)
Theorem downloadManifest_nil_handles (dso : option PackageService) name ver w :
  (dso = None →
   downloadManifest json_Decode dso name ver w
   = (Done (Err "PackageService doesn't exist", false), w))
  ∧ (∀ ds, dso = Some ds → archive ds = None →
     downloadManifest json_Decode dso name ver w = (Panic, w)).
Proof.
  split; [by intros ->|].
  intros ds -> Hnil. unfold downloadManifest. by rewrite Hnil.
Qed.

(** X9. Without a service, without an archive or without a file
    [downloadFile] returns its error at once, and calls neither the archive
    nor the downloader. *)
Theorem downloadFile_nil_guard (dso : option PackageService) (file : ptr File) name ver w :
  dso = None ∨ (∃ ds, dso = Some ds ∧ archive ds = None) ∨ file = None →
  downloadFile Networkdep dso file name ver w
  = (Err "Either package service does not exist or does not have archive information or the file information does not exist",
     w).
Proof.
  unfold downloadFile.
  intros [->|[(ds & -> & Hnil)| ->]].
  - by destruct file.
  - rewrite Hnil. by destruct file.
  - by destruct dso.
Qed.

(** *** Selector resolver *)

Lemma lookupOrAny_Some {V} (key : string) (level : gomap string V) (v : V) :
  lookupOrAny key level = Some v →
  ∃ k, (k = key ∨ k = "_any") ∧ index level k = Some v.
Proof.
  unfold lookupOrAny.
  destruct (index level key) as [v'|] eqn:Hkey.
  - intros [= <-]. exists key. by split; [left|].
  - intros Hany. exists "_any". by split; [right|].
Qed.

(** X10. A variant filed under the host's own platform, version and
    architecture is the one resolution returns, whatever is filed under
    [_any] at any level. *)
Theorem extractPackageInfo_exact_path
    ds manifest env w (versions : gomap string (gomap string (ptr PackageInfo)))
    (archs : gomap string (ptr PackageInfo)) (variant : ptr PackageInfo) :
  CollectData (collector ds) = (env, None) →
  index (Packages manifest) (Platform (OperatingSystem_ env)) = Some versions →
  index versions (PlatformVersion (OperatingSystem_ env)) = Some archs →
  index archs (Architecture (OperatingSystem_ env)) = Some variant →
  (extractPackageInfo ds manifest w).1 = Ok variant.
Proof.
  intros Hcollect Hp Hv Ha.
  rewrite extractPackageInfo_run, Hcollect. simpl.
  rewrite selectPackageInfo_resolveVariant.
  unfold resolveVariant, lookupOrAny. by rewrite Hp, Hv, Ha.
Qed.

(** X11. A variant that resolution returns is filed in the selector tree
    under three keys, each of which is the host's own value at that level or
    [_any]. *)
Theorem extractPackageInfo_sound ds manifest env w (variant : ptr PackageInfo) :
  CollectData (collector ds) = (env, None) →
  (extractPackageInfo ds manifest w).1 = Ok variant →
  ∃ kp kv ka versions archs,
    (kp = Platform (OperatingSystem_ env) ∨ kp = "_any")
    ∧ (kv = PlatformVersion (OperatingSystem_ env) ∨ kv = "_any")
    ∧ (ka = Architecture (OperatingSystem_ env) ∨ ka = "_any")
    ∧ index (Packages manifest) kp = Some versions
    ∧ index versions kv = Some archs
    ∧ index archs ka = Some variant.
Proof.
  intros Hcollect. rewrite extractPackageInfo_run, Hcollect. simpl.
  rewrite selectPackageInfo_resolveVariant. unfold resolveVariant.
  destruct (lookupOrAny _ (Packages manifest)) as [versions|] eqn:Hp; [|discriminate].
  destruct (lookupOrAny _ versions) as [archs|] eqn:Hv; [|discriminate].
  destruct (lookupOrAny _ archs) as [found|] eqn:Ha; [|discriminate].
  intros [= <-].
  apply lookupOrAny_Some in Hp as (kp & Hkp & Hp).
  apply lookupOrAny_Some in Hv as (kv & Hkv & Hv).
  apply lookupOrAny_Some in Ha as (ka & Hka & Ha).
  by exists kp, kv, ka, versions, archs.
Qed.

(** X12. Once the collector has reported the host, every failure of
    resolution carries the same message, which names the host's platform,
    version and architecture and not the level that had no entry. *)
Theorem extractPackageInfo_failure_message ds manifest env w (msg : error) :
  CollectData (collector ds) = (env, None) →
  (extractPackageInfo ds manifest w).1 = Err msg →
  msg = NoMatchError (Platform (OperatingSystem_ env))
          (PlatformVersion (OperatingSystem_ env)) (Architecture (OperatingSystem_ env)).
Proof.
  intros Hcollect. rewrite extractPackageInfo_run, Hcollect. simpl.
  rewrite selectPackageInfo_resolveVariant. unfold resolveVariant.
  destruct (lookupOrAny _ (Packages manifest)) as [versions|]; [|congruence].
  destruct (lookupOrAny _ versions) as [archs|]; [|congruence].
  destruct (lookupOrAny _ archs) as [found|]; [discriminate|congruence].
Qed.

(** X13. A manifest without a selector tree, or with an empty one, matches
    no host. *)
Theorem extractPackageInfo_no_packages ds manifest env w :
  CollectData (collector ds) = (env, None) →
  Packages manifest = None ∨ Packages manifest = Some ∅ →
  (extractPackageInfo ds manifest w).1
  = Err (NoMatchError (Platform (OperatingSystem_ env))
           (PlatformVersion (OperatingSystem_ env)) (Architecture (OperatingSystem_ env))).
Proof.
  intros Hcollect Hempty. rewrite extractPackageInfo_run, Hcollect. simpl.
  rewrite selectPackageInfo_resolveVariant. unfold resolveVariant, lookupOrAny.
  destruct Hempty as [-> | ->]; simpl; [done|]. by rewrite !lookup_empty.
Qed.

(** *** Artifact locator *)

(** X14. When the selector tree files a null variant for the host,
    [findFileFromManifest] returns the file-not-found error if the file
    table is absent or empty, and panics as soon as the table has an entry,
    the loop over it reading the file name of the null variant. *)
Theorem findFileFromManifest_null_variant ds manifest w :
  (extractPackageInfo ds manifest w).1 = Ok None →
  (Files manifest = None ∨ Files manifest = Some ∅ →
   (findFileFromManifest ds manifest w).1 = Done (Err "failed to find file for <nil>"))
  ∧ (∀ name f,
       index (Files manifest) name = Some f →
       (findFileFromManifest ds manifest w).1 = Panic).
Proof.
  intros Hvariant. unfold findFileFromManifest, bind.
  destruct (extractPackageInfo ds manifest w) as [r w1]. simpl in Hvariant. subst r.
  split.
  - intros [-> | ->]; simpl; [done|]. by rewrite map_to_list_empty.
  - intros name f Hindex.
    destruct (Files manifest) as [entries|]; simpl in *; [|done].
    apply elem_of_map_to_list in Hindex.
    destruct (map_to_list entries) as [|[name' f'] rest]; [|done].
    by apply elem_of_nil in Hindex.
Qed.

(** X15. The outcome of the loop over the file table does not depend on
    the order in which the entries of the map are visited: every enumeration
    of the table gives what the one of [range] gives. *)
Theorem scanFiles_order_independent
    (pkginfo : ptr PackageInfo) (files : gomap string (ptr FileInfo))
    (l : list (string * ptr FileInfo)) :
  l ≡ₚ range files → scanFiles pkginfo l = scanFiles pkginfo (range files).
Proof.
  intros Hperm.
  assert (Hnodup : NoDup (range files).*1).
  { destruct files as [entries|]; simpl; [apply NoDup_fst_map_to_list|constructor]. }
  destruct pkginfo as [info|].
  - destruct (decide (FileName info ∈ (range files).*1)) as [Hin|Hout].
    + apply list_elem_of_fmap in Hin as ([name f] & Hname & Hin). simpl in Hname. subst name.
      rewrite (scanFiles_found info (range files) f Hnodup Hin).
      apply scanFiles_found; by rewrite Hperm.
    + rewrite (scanFiles_missing info (range files) Hout).
      apply scanFiles_missing. by rewrite Hperm.
  - destruct l as [|[name1 f1] l], (range files) as [|[name2 f2] l2]; try done.
    + by apply Permutation_nil_l in Hperm.
    + by apply Permutation_nil_r in Hperm.
Qed.

(** *** Result reporter *)

(** X16. [ReportResult] fails exactly when the submission to the facade
    fails, with the facade's error after the prefix of the reporter; it
    never touches the store. *)
Theorem ReportResult_fails_iff_submission_fails ds result w :
  let input :=
    reportInput loopvar_per_iteration result (CollectData (collector ds)).1
      (NowUnixNano (timeProvider ds)) in
  let run := ReportResult loopvar_per_iteration ds result w in
  cache run.2 = cache w
  ∧ (run.1 = None ↔ PutConfigurePackageResult (facadeClient ds) input = None)
  ∧ ∀ perr,
      PutConfigurePackageResult (facadeClient ds) input = Some perr →
      run.1 = Some ("failed to report results: " +:+ perr).
Proof.
  intros input run. subst run. rewrite ReportResult_run. cbv zeta. fold input.
  simpl. split; [done|].
  destruct (PutConfigurePackageResult (facadeClient ds) input) as [perr|].
  - split; [done|]. by intros ? [= <-].
  - done.
Qed.

(** X17. The payload carries exactly seven attributes, the three of the
    operating system and the four of the instance under their fixed keys,
    and carries a previous version exactly when the result has one that is
    not empty. *)
Theorem reportInput_attributes result env now :
  let input := reportInput loopvar_per_iteration result env now in
  size (Attributes input) = 7%nat
  ∧ Attributes input !! "platformName" = Some (Platform (OperatingSystem_ env))
  ∧ Attributes input !! "platformVersion" = Some (PlatformVersion (OperatingSystem_ env))
  ∧ Attributes input !! "architecture" = Some (Architecture (OperatingSystem_ env))
  ∧ Attributes input !! "instanceID" = Some (InstanceID (Ec2Infrastructure_ env))
  ∧ Attributes input !! "instanceType" = Some (InstanceType (Ec2Infrastructure_ env))
  ∧ Attributes input !! "region" = Some (Region (Ec2Infrastructure_ env))
  ∧ Attributes input !! "availabilityZone"
    = Some (AvailabilityZone (Ec2Infrastructure_ env))
  ∧ (InputPreviousPackageVersion input = None ↔ PreviousPackageVersion result = "")
  ∧ ∀ previous,
      InputPreviousPackageVersion input = Some previous →
      previous = PreviousPackageVersion result ∧ previous ≠ "".
Proof.
  intros input. subst input. unfold reportInput, reportAttributes. simpl.
  repeat (split; [reflexivity|]).
  destruct (decide (PreviousPackageVersion result = "")) as [Hempty|Hset].
  - split; [done|]. discriminate.
  - split; [split; [discriminate|done]|]. by intros ? [= <-].
Qed.

Lemma elapsedMillis_exact T S :
  is_int64 (T - S) → elapsedMillis T S = Z.quot (T - S) 1000000.
Proof. intros Hfits. by rewrite elapsedMillis_quot, (wrap64_id _ Hfits). Qed.

(** X19. As long as the differences fit in an [int64], a later timestamp
    never gets a smaller elapsed time. *)
Theorem elapsedMillis_monotone T1 T2 S :
  is_int64 (T1 - S) → is_int64 (T2 - S) → T1 <= T2 →
  elapsedMillis T1 S <= elapsedMillis T2 S.
Proof.
  intros H1 H2 Hle. rewrite !elapsedMillis_exact by done.
  apply Z.quot_le_mono; lia.
Qed.

(** X20. When no difference overflows, a step stamped no later than the
    reading of the clock is reported with an elapsed time no greater than
    the overall timing. *)
Theorem overall_timing_bounds_steps result env now :
  let input := reportInput loopvar_per_iteration result env now in
  is_int64 (now - ResultTiming result) →
  Forall (λ t, is_int64 (Timing t - ResultTiming result) ∧ Timing t <= now)
    (ResultTrace result) →
  Forall (λ step, StepTiming step <= OverallTiming input) (Steps input).
Proof.
  intros input Hnow Hsteps. subst input. simpl. unfold reportSteps.
  apply Forall_forall. intros step Hin.
  apply list_elem_of_In, List.in_map_iff in Hin as (t & <- & Hin). simpl.
  rewrite Forall_forall in Hsteps.
  destruct (Hsteps t) as [Hfits Hle]; [by apply list_elem_of_In|].
  rewrite !elapsedMillis_exact by done. apply Z.quot_le_mono; lia.
Qed.

(** X21. Whatever the two timestamps, the elapsed time lies between
    -9223372036854 and 9223372036854 milliseconds, the range of an [int64]
    divided by a million: the division cannot overflow. *)
Theorem elapsedMillis_range T S :
  -9223372036854 <= elapsedMillis T S <= 9223372036854.
Proof.
  rewrite elapsedMillis_quot.
  pose proof (wrap64_is_int64 (T - S)) as Hfits. unfold is_int64 in Hfits.
  set (d := wrap64 (T - S)) in *.
  pose proof (Z.quot_rem' d 1000000) as Hqr.
  destruct (Z.lt_ge_cases d 0) as [Hneg|Hpos].
  - pose proof (Z.rem_bound_pos_neg d 1000000 eq_refl (Z.lt_le_incl _ _ Hneg)). lia.
  - pose proof (Z.rem_bound_pos d 1000000 Hpos eq_refl). lia.
Qed.

(** *** What the archive and the downloader are asked *)

Lemma downloadManifest_archiveCalls ds name ver w :
  ∃ evs, events (downloadManifest json_Decode (Some ds) name ver w).2 = events w ++ evs
         ∧ Forall (archiveCallFor name ver) evs.
Proof.
  destruct (archive ds) as [ar|] eqn:Har.
  2:{ exists []. unfold downloadManifest. rewrite Har. simpl. by rewrite app_nil_r. }
  destruct (DownloadArchiveInfo ar name ver) as [body|err] eqn:Hfetch.
  2:{ exists [EvDownloadArchiveInfo name ver].
      unfold downloadManifest, downloadArchiveInfo, bind, emit, ret.
      rewrite Har. simpl. rewrite Hfetch. simpl.
      split; [done|]. by repeat constructor. }
  destruct (parseManifest json_Decode (list_byte_of_string body)) as [parsed|err] eqn:Hparse.
  2:{ exists [EvDownloadArchiveInfo name ver].
      unfold downloadManifest, downloadArchiveInfo, bind, emit, ret.
      rewrite Har. simpl. rewrite Hfetch, Hparse. simpl.
      split; [done|]. by repeat constructor. }
  rewrite (downloadManifest_fresh json_Decode ds ar name ver body parsed w Har Hfetch Hparse).
  eexists. split; [reflexivity|]. by repeat constructor.
Qed.

Lemma locateAndDownload_archiveCalls ds manifest name ver w :
  ∃ evs, events (locateAndDownload Networkdep ds manifest name ver w).2 = events w ++ evs
         ∧ Forall (archiveCallFor name ver) evs.
Proof.
  unfold locateAndDownload, bind.
  pose proof (findFileFromManifest_world ds manifest w) as Hfind.
  destruct (findFileFromManifest ds manifest w) as [[[file|err]|] w1];
    simpl in Hfind; subst w1;
    try (exists [EvCollectData]; split; [done|by repeat constructor]).
  unfold downloadFile.
  destruct (archive ds) as [ar|];
    [|exists [EvCollectData]; split; [done|by repeat constructor]].
  unfold getFileDownloadLocation, download, bind, emit, ret. simpl.
  destruct (GetFileDownloadLocation ar file name ver) as [url|err].
  - exists [EvCollectData; EvGetFileDownloadLocation file name ver;
            EvDownload {| SourceURL := url; SourceChecksums := Checksums (Info file) |}].
    split; [|by repeat constructor].
    destruct (bool_decide _ || bool_decide _); simpl; by rewrite <- !app_assoc.
  - exists [EvCollectData; EvGetFileDownloadLocation file name ver]. simpl.
    rewrite <- app_assoc. split; [done|by repeat constructor].
Qed.

(** X22. Every call [DownloadArtifact] makes to the archive, for the
    manifest or for the download location, is for the package name and the
    version its caller supplied, also when the manifest it uses carries
    another version. *)
Theorem DownloadArtifact_archive_calls ds name ver w :
  ∃ evs,
    events (DownloadArtifact json_Decode Networkdep ds name ver w).2 = events w ++ evs
    ∧ Forall (archiveCallFor name ver) evs.
Proof.
  rewrite DownloadArtifact_run. cbv zeta.
  set (w1 := MkWorld (cache w) (events w ++ [EvReadManifest name ver])).
  destruct (cachedManifest json_Decode (cache w) name ver) as [manifest|err0].
  - destruct (locateAndDownload_archiveCalls ds manifest name ver w1) as (evs & -> & Hevs).
    exists (EvReadManifest name ver :: evs). subst w1. simpl.
    rewrite <- app_assoc. split; [done|by constructor].
  - destruct (downloadManifest_archiveCalls ds name ver w1) as (evs & Hevs & Hfor).
    destruct (downloadManifest json_Decode (Some ds) name ver w1)
      as [[[[manifest|err] flag]|] w2]; simpl in Hevs.
    + destruct (locateAndDownload_archiveCalls ds manifest name ver w2)
        as (evs2 & -> & Hfor2).
      exists (EvReadManifest name ver :: evs ++ evs2). rewrite Hevs. subst w1. simpl.
      rewrite <- !app_assoc. split; [done|].
      constructor; [done|]. by apply Forall_app.
    + exists (EvReadManifest name ver :: evs). simpl. rewrite Hevs. subst w1. simpl.
      rewrite <- app_assoc. split; [done|by constructor].
    + exists (EvReadManifest name ver :: evs). simpl. rewrite Hevs. subst w1. simpl.
      rewrite <- app_assoc. split; [done|by constructor].
Qed.

(** X23. Whenever the second half of [DownloadArtifact] calls the
    downloader, it hands it the checksums that the manifest's file table
    lists under the file name of the variant resolved for the host. *)
Theorem downloader_gets_manifest_checksums ds manifest name ver w :
  ∃ evs,
    events (locateAndDownload Networkdep ds manifest name ver w).2 = events w ++ evs
    ∧ ∀ input,
        EvDownload input ∈ evs →
        ∃ info fileInfo,
          (extractPackageInfo ds manifest w).1 = Ok (Some info)
          ∧ index (Files manifest) (FileName info) = Some (Some fileInfo)
          ∧ SourceChecksums input = Checksums fileInfo.
Proof.
  unfold locateAndDownload, bind.
  pose proof (findFileFromManifest_world ds manifest w) as Hworld.
  assert (Hfound : ∀ file,
             (findFileFromManifest ds manifest w).1 = Done (Ok file) →
             ∃ info, (extractPackageInfo ds manifest w).1 = Ok (Some info)
                     ∧ index (Files manifest) (FileName info) = Some (Some (Info file))).
  { intros file. unfold findFileFromManifest, bind.
    destruct (extractPackageInfo ds manifest w) as [[[info|]|err] w0]; simpl.
    - rewrite scanFiles_index.
      destruct (index (Files manifest) (FileName info)) as [[fileInfo|]|] eqn:Hindex;
        simpl; try discriminate.
      intros [= <-]. by exists info.
    - destruct (range (Files manifest)) as [|[n f] l]; simpl; discriminate.
    - discriminate. }
  destruct (findFileFromManifest ds manifest w) as [[[file|err]|] w1];
    simpl in Hworld; subst w1;
    try (exists [EvCollectData]; split; [done|];
         intros input Hin; apply list_elem_of_singleton in Hin; discriminate).
  destruct (Hfound file eq_refl) as (info & Hinfo & Hindex).
  unfold downloadFile.
  destruct (archive ds) as [ar|].
  2:{ exists [EvCollectData]. split; [done|].
      intros input Hin. apply list_elem_of_singleton in Hin. discriminate. }
  unfold getFileDownloadLocation, download, bind, emit, ret. simpl.
  destruct (GetFileDownloadLocation ar file name ver) as [url|err].
  - exists [EvCollectData; EvGetFileDownloadLocation file name ver;
            EvDownload {| SourceURL := url; SourceChecksums := Checksums (Info file) |}].
    split.
    + destruct (bool_decide _ || bool_decide _); simpl; by rewrite <- !app_assoc.
    + intros input Hin. exists info, (Info file).
      split; [done|]. split; [done|].
      repeat (apply elem_of_cons in Hin as [Heq|Hin]; [try discriminate Heq|]).
      * by injection Heq as ->.
      * by apply elem_of_nil in Hin.
  - exists [EvCollectData; EvGetFileDownloadLocation file name ver]. simpl.
    rewrite <- app_assoc. split; [done|].
    intros input Hin.
    repeat (apply elem_of_cons in Hin as [Heq|Hin]; [discriminate Heq|]).
    by apply elem_of_nil in Hin.
Qed.
End ServiceBehaviour.

(** ** The further properties on concrete runs *)

Lemma downloadManifest_early_failure_witness :
  downloadManifest stubDecode (Some (stubService linuxHost None)) "missing" "latest"
    (startWorld emptyCache)
  = (Done (Err "failed to download manifest - package not found", false),
     MkWorld emptyCache [EvDownloadArchiveInfo "missing" "latest"]).
Proof.
  exact (downloadManifest_early_failure stubDecode (stubService linuxHost None) stubArchive
           "missing" "latest" (startWorld emptyCache) eq_refl).
Defined.

Lemma DownloadManifest_own_identity_witness :
  ∃ flag, (DownloadManifest stubDecode (stubService linuxHost None) "pkg" "latest"
             (startWorld emptyCache)).1
          = Done (Ok ("arn:aws:ssm:::package/pkg", "1.0.0"), flag).
Proof.
  exact (DownloadManifest_own_identity stubDecode (stubService linuxHost None) stubArchive
           "pkg" "latest" "linux-manifest" linuxManifest (startWorld emptyCache)
           eq_refl eq_refl eq_refl eq_refl).
Defined.

Lemma DownloadManifest_twice_unchanged_witness :
  ∃ r, (DownloadManifest stubDecode (stubService linuxHost None) "pkg" "latest"
          (DownloadManifest stubDecode (stubService linuxHost None) "pkg" "latest"
             (startWorld emptyCache)).2).1
       = Done (r, true).
Proof.
  exact (DownloadManifest_twice_unchanged stubDecode (stubService linuxHost None) stubArchive
           "pkg" "latest" "linux-manifest" linuxManifest (startWorld emptyCache)
           eq_refl eq_refl eq_refl eq_refl).
Defined.

Lemma DownloadArtifact_after_DownloadManifest_witness :
  let w1 := (DownloadManifest stubDecode (stubService linuxHost None) "pkg" "latest"
               (startWorld emptyCache)).2 in
  cache (DownloadArtifact stubDecode stubNetwork (stubService linuxHost None)
           "arn:aws:ssm:::package/pkg" "1.0.0" w1).2
  = cache w1.
Proof.
  exact (proj1 (proj2 (DownloadArtifact_after_DownloadManifest stubDecode stubNetwork
                         (stubService linuxHost None) stubArchive "pkg" "latest"
                         "linux-manifest" linuxManifest (startWorld emptyCache)
                         eq_refl eq_refl eq_refl eq_refl))).
Defined.

Lemma DownloadArtifact_store_witness :
  cache (DownloadArtifact stubDecode stubNetwork (stubService linuxHost None)
           "arn:aws:ssm:::package/pkg" "1.0.0" (startWorld warmCache)).2
  = warmCache.
Proof.
  refine (proj1 (DownloadArtifact_store stubDecode stubNetwork (stubService linuxHost None)
                   "arn:aws:ssm:::package/pkg" "1.0.0" (startWorld warmCache))
            linuxManifest _).
  by vm_compute.
Defined.

Lemma DownloadArtifact_ok_witness :
  (DownloadArtifact stubDecode stubNetwork (stubService linuxHost None) "pkg" "latest"
     (startWorld emptyCache)).1 = Done (Ok "/var/lib/pkg.zip")
  ∧ "/var/lib/pkg.zip" ≠ "".
Proof.
  assert (Hrun : (DownloadArtifact stubDecode stubNetwork (stubService linuxHost None)
                    "pkg" "latest" (startWorld emptyCache)).1
                 = Done (Ok "/var/lib/pkg.zip")) by (by vm_compute).
  split; [exact Hrun|].
  exact (proj1 (DownloadArtifact_ok stubDecode stubNetwork (stubService linuxHost None)
                  "pkg" "latest" (startWorld emptyCache) "/var/lib/pkg.zip" Hrun)).
Defined.

Lemma DownloadArtifact_collector_failure_witness :
  DownloadArtifact stubDecode stubNetwork
    (stubService noHost (Some "unsupported platform"))
    "arn:aws:ssm:::package/pkg" "1.0.0" (startWorld warmCache)
  = (Done (Err "failed to find platform: failed to collect data: unsupported platform"),
     MkWorld warmCache
       [EvReadManifest "arn:aws:ssm:::package/pkg" "1.0.0"; EvCollectData]).
Proof.
  refine (proj1 (proj2 (DownloadArtifact_collector_failure stubDecode stubNetwork
                          (stubService noHost (Some "unsupported platform"))
                          "arn:aws:ssm:::package/pkg" "1.0.0" noHost
                          "unsupported platform" (startWorld warmCache) eq_refl))
            linuxManifest _).
  by vm_compute.
Defined.

Lemma downloadManifest_nil_handles_witness :
  downloadManifest stubDecode (Some noArchiveService) "pkg" "latest" (startWorld emptyCache)
  = (Panic, startWorld emptyCache).
Proof.
  exact (proj2 (downloadManifest_nil_handles stubDecode (Some noArchiveService) "pkg" "latest"
                  (startWorld emptyCache)) noArchiveService eq_refl eq_refl).
Defined.

Lemma downloadFile_nil_guard_witness :
  (downloadFile stubNetwork (Some noArchiveService)
     (Some {| Name := "pkg.zip"; Info := pkgZipInfo |}) "pkg" "1.0.0"
     (startWorld emptyCache)).2
  = startWorld emptyCache.
Proof.
  rewrite (downloadFile_nil_guard stubNetwork (Some noArchiveService)
             (Some {| Name := "pkg.zip"; Info := pkgZipInfo |}) "pkg" "1.0.0"
             (startWorld emptyCache)); [reflexivity|].
  right. left. by exists noArchiveService.
Defined.

Lemma extractPackageInfo_exact_path_witness :
  (extractPackageInfo (stubService oldLinuxHost None) shadowedManifest
     (startWorld emptyCache)).1 = Ok (Some pkgZip).
Proof.
  apply (extractPackageInfo_exact_path (stubService oldLinuxHost None) shadowedManifest
           oldLinuxHost (startWorld emptyCache)
           (Some {[ "4.0" := Some {[ "x86_64" := Some pkgZip ]} ]})
           (Some {[ "x86_64" := Some pkgZip ]}));
    by vm_compute.
Defined.

Lemma extractPackageInfo_sound_witness :
  ∃ kp kv ka versions archs,
    (kp = "linux" ∨ kp = "_any") ∧ (kv = "5.0" ∨ kv = "_any")
    ∧ (ka = "x86_64" ∨ ka = "_any")
    ∧ index (Packages linuxManifest) kp = Some versions
    ∧ index versions kv = Some archs
    ∧ index archs ka = Some (Some pkgZip).
Proof.
  apply (extractPackageInfo_sound (stubService linuxHost None) linuxManifest linuxHost
           (startWorld emptyCache) (Some pkgZip)); by vm_compute.
Defined.

Lemma extractPackageInfo_failure_message_witness :
  "no manifest found for platform: windows, version 5.0, architecture x86_64"
  = NoMatchError "windows" "5.0" "x86_64".
Proof.
  apply (extractPackageInfo_failure_message (stubService windowsHost None) linuxManifest
           windowsHost (startWorld emptyCache)); by vm_compute.
Defined.

Lemma extractPackageInfo_no_packages_witness :
  (extractPackageInfo (stubService linuxHost None) emptyManifest (startWorld emptyCache)).1
  = Err (NoMatchError "linux" "5.0" "x86_64").
Proof.
  apply (extractPackageInfo_no_packages (stubService linuxHost None) emptyManifest
           linuxHost (startWorld emptyCache)); [reflexivity|by left].
Defined.

Lemma findFileFromManifest_null_variant_witness :
  (findFileFromManifest (stubService linuxHost None) nullVariantManifest
     (startWorld emptyCache)).1 = Panic.
Proof.
  refine (proj2 (findFileFromManifest_null_variant (stubService linuxHost None)
                   nullVariantManifest (startWorld emptyCache) _)
            "pkg.zip" (Some pkgZipInfo) _);
    by vm_compute.
Defined.

Lemma scanFiles_order_independent_witness :
  scanFiles (Some pkgZip) (reverse (range twoFiles))
  = scanFiles (Some pkgZip) (range twoFiles).
Proof.
  apply (scanFiles_order_independent (Some pkgZip) twoFiles).
  apply reverse_Permutation.
Defined.

Lemma ReportResult_fails_iff_submission_fails_witness :
  (ReportResult true rejectedService oneStepResult (startWorld emptyCache)).1
  = Some "failed to report results: AccessDenied".
Proof.
  exact (proj2 (proj2 (ReportResult_fails_iff_submission_fails true rejectedService
                         oneStepResult (startWorld emptyCache)))
           "AccessDenied" eq_refl).
Defined.

Lemma reportInput_attributes_witness :
  InputPreviousPackageVersion (reportInput true oneStepResult linuxHost 1005000000) = None.
Proof.
  apply (reportInput_attributes true oneStepResult linuxHost 1005000000). reflexivity.
Defined.

Lemma elapsedMillis_monotone_witness :
  elapsedMillis 1001000000 1000000000 <= elapsedMillis 1003000000 1000000000.
Proof.
  apply elapsedMillis_monotone; unfold is_int64; simpl; lia.
Defined.

Lemma overall_timing_bounds_steps_witness :
  Forall (λ step, StepTiming step
                  <= OverallTiming (reportInput true twoStepResult linuxHost 1005000000))
    (Steps (reportInput true twoStepResult linuxHost 1005000000)).
Proof.
  apply overall_timing_bounds_steps.
  - unfold is_int64. simpl. lia.
  - repeat constructor; unfold is_int64; simpl; lia.
Defined.

Lemma downloader_gets_manifest_checksums_witness :
  ∃ evs,
    events (locateAndDownload stubNetwork (stubService linuxHost None) linuxManifest
              "pkg" "1.0.0" (startWorld emptyCache)).2 = [] ++ evs
    ∧ ∀ input,
        EvDownload input ∈ evs →
        ∃ info fileInfo,
          (extractPackageInfo (stubService linuxHost None) linuxManifest
             (startWorld emptyCache)).1 = Ok (Some info)
          ∧ index (Files linuxManifest) (FileName info) = Some (Some fileInfo)
          ∧ SourceChecksums input = Checksums fileInfo.
Proof.
  exact (downloader_gets_manifest_checksums stubNetwork (stubService linuxHost None)
           linuxManifest "pkg" "1.0.0" (startWorld emptyCache)).
Defined.
